(** * The channels node of the visual-editing toolkit

    A shallow embedding of [packages/channels/src/node.ts]: the connection
    record kept by [createChannelsNode], its outbound buffer, the [send]
    operation, the inbound dispatcher [handleEvents], and the status
    transitions.  The node is single threaded; every operation is a
    function from the node state to a completion (normal or thrown) and the
    node state after it.  What the node does to the outside world (messages
    handed to the peer sink, callbacks into the application, the console
    warning) is recorded in a trace kept in the state. *)

From Stdlib Require Import String ZArith Bool List Lia.
From stdpp Require Import list.
Import ListNotations.
Open Scope string_scope.
Open Scope list_scope.

(** ** JavaScript values as they arrive in a message event *)

(** The payload of a message event is an arbitrary structured-clonable
    value.  Numbers are restricted to integers. *)
#[warnings="-register-all"]
Inductive JsVal : Type :=
| JNull
| JUndefined
| JBool (b : bool)
| JNum (n : Z)
| JStr (s : string)
| JObj (fields : list (string * JsVal)).

(** Conversion to boolean, as done by [&&] and [if]. *)
Definition truthy (v : JsVal) : bool :=
  match v with
  | JNull | JUndefined => false
  | JBool b => b
  | JNum n => negb (Z.eqb n 0)
  | JStr s => negb (String.eqb s "")
  | JObj _ => true
  end.

(** [===].  Primitives compare by value.  Objects compare by reference:
    every object reaching the node sits inside the structured clone of one
    message event, and the node only ever compares a value of the current
    event with one kept from an earlier event, so two objects never are the
    same reference. *)
Definition strict_eq (a b : JsVal) : bool :=
  match a, b with
  | JNull, JNull => true
  | JUndefined, JUndefined => true
  | JBool x, JBool y => Bool.eqb x y
  | JNum x, JNum y => Z.eqb x y
  | JStr x, JStr y => String.eqb x y
  | _, _ => false
  end.

Fixpoint lookup_field (k : string) (fs : list (string * JsVal)) : JsVal :=
  match fs with
  | [] => JUndefined
  | (k', v) :: rest => if String.eqb k k' then v else lookup_field k rest
  end.

(** ** Exceptions and the node monad *)

Inductive Exn : Type :=
| TypeError
    (* property read on null or undefined *)
| PostMessageFailed (msg_id : nat) (node_id : string).
    (* Error(`Failed to postMessage '${msg.id}' on '${config.id}'`) *)

(** A peer sink ([MessageEventSource]) is known by its reference only. *)
Definition Source := nat.

(** Modelled from the spec: [./types] is missing; [ChannelStatus] has the
    statuses of the status callback contract, of which [node.ts] names
    'connecting', 'reconnecting', 'connected' and 'disconnected'. *)
Inductive ChannelStatus : Type :=
| Connecting
| Connected
| Reconnecting
| Disconnected
| Unhealthy.

Definition status_eqb (a b : ChannelStatus) : bool :=
  match a, b with
  | Connecting, Connecting
  | Connected, Connected
  | Reconnecting, Reconnecting
  | Disconnected, Disconnected
  | Unhealthy, Unhealthy => true
  | _, _ => false
  end.

(** [ProtocolMsg]: the envelope handed to the peer sink, with the fields
    [send] fills in; [id] is the value of [uuid()]. *)
Record ProtocolMsg : Type := mkMsg {
  msg_connectionId : JsVal;
  msg_data : JsVal;
  msg_domain : string;
  msg_from : string;
  msg_id : nat;
  msg_to : string;
  msg_type : string
}.

(** [ChannelsNodeChannel], with the fields [createChannelsNode] initialises.
    The session id is whatever value the handshake-open carried. *)
Record ChannelsNodeChannel : Type := mkChannel {
  ch_buffer : list (string * JsVal);
  ch_id : JsVal;
  ch_origin : option string;
  ch_source : option Source;
  ch_status : ChannelStatus
}.

(** [MessageEvent]: the three fields the node reads. *)
Record MessageEvent : Type := mkEvent {
  ev_data : JsVal;
  ev_origin : string;
  ev_source : option Source
}.

(** What the node does to its surroundings. *)
Inductive Effect : Type :=
| PostMessage (sink : Source) (msg : ProtocolMsg) (targetOrigin : string)
| OnEvent (type : JsVal) (data : JsVal)
| OnStatusUpdate (next : ChannelStatus)
| ConsoleError.

(** The state closed over by [createChannelsNode]: the channel record, the
    next identifier [uuid()] hands out, whether the window listener is
    installed, and the trace of effects so far (oldest first). *)
Record NodeState : Type := mkNode {
  channel : ChannelsNodeChannel;
  next_uuid : nat;
  listening : bool;
  trace : list Effect
}.

Inductive Completion (A : Type) : Type :=
| Normal (a : A)
| Thrown (e : Exn).
Arguments Normal {A} a.
Arguments Thrown {A} e.

Definition M (A : Type) : Type := NodeState -> Completion A * NodeState.

Definition ret {A} (a : A) : M A := fun s => (Normal a, s).

Definition bind {A B} (m : M A) (k : A -> M B) : M B :=
  fun s =>
    match m s with
    | (Normal a, s') => k a s'
    | (Thrown e, s') => (Thrown e, s')
    end.

Notation "x <- m ;; k" := (bind m (fun x => k))
  (at level 100, m at next level, right associativity).
Notation "m ;;; k" := (bind m (fun _ => k))
  (at level 100, right associativity).

Definition throw {A} (e : Exn) : M A := fun s => (Thrown e, s).

(** State transformers behind the primitive operations. *)
Definition with_channel (f : ChannelsNodeChannel -> ChannelsNodeChannel)
    (s : NodeState) : NodeState :=
  mkNode (f (channel s)) (next_uuid s) (listening s) (trace s).

Definition recorded (evs : list Effect) (s : NodeState) : NodeState :=
  mkNode (channel s) (next_uuid s) (listening s) (trace s ++ evs).

Definition uuid_taken (s : NodeState) : NodeState :=
  mkNode (channel s) (S (next_uuid s)) (listening s) (trace s).

Definition get_channel : M ChannelsNodeChannel :=
  fun s => (Normal (channel s), s).

Definition modify_channel (f : ChannelsNodeChannel -> ChannelsNodeChannel) : M unit :=
  fun s => (Normal tt, with_channel f s).

Definition emit (ev : Effect) : M unit :=
  fun s => (Normal tt, recorded [ev] s).

Definition uuid : M nat :=
  fun s => (Normal (next_uuid s), uuid_taken s).

Definition set_listening (b : bool) : M unit :=
  fun s => (Normal tt, mkNode (channel s) (next_uuid s) b (trace s)).

(** The state a computation leaves behind, whether it returns or throws. *)
Definition after {A} (m : M A) (s : NodeState) : NodeState := snd (m s).

Definition when (b : bool) (m : M unit) : M unit := if b then m else ret tt.

(** [xs.forEach(f)]: stops at the first exception. *)
Fixpoint forEach {A} (f : A -> M unit) (xs : list A) : M unit :=
  match xs with
  | [] => ret tt
  | x :: rest => f x ;;; forEach f rest
  end.

(** [v.k].  Reading a property of null or undefined throws; an object
    yields the field or undefined; a primitive has none of the properties
    the node reads. *)
Definition field_of (v : JsVal) (k : string) : JsVal :=
  match v with
  | JObj fs => lookup_field k fs
  | _ => JUndefined
  end.

Definition get_prop (v : JsVal) (k : string) : M JsVal :=
  match v with
  | JNull | JUndefined => throw TypeError
  | _ => ret (field_of v k)
  end.

(** Field updates of the channel record. *)
Definition set_buffer (b : list (string * JsVal)) (c : ChannelsNodeChannel) :=
  mkChannel b (ch_id c) (ch_origin c) (ch_source c) (ch_status c).
Definition set_id (v : JsVal) (c : ChannelsNodeChannel) :=
  mkChannel (ch_buffer c) v (ch_origin c) (ch_source c) (ch_status c).
Definition set_origin (o : option string) (c : ChannelsNodeChannel) :=
  mkChannel (ch_buffer c) (ch_id c) o (ch_source c) (ch_status c).
Definition set_source (w : option Source) (c : ChannelsNodeChannel) :=
  mkChannel (ch_buffer c) (ch_id c) (ch_origin c) w (ch_status c).
Definition set_status (st : ChannelStatus) (c : ChannelsNodeChannel) :=
  mkChannel (ch_buffer c) (ch_id c) (ch_origin c) (ch_source c) st.

(** A nullable string in boolean position: null and the empty string are
    falsy. *)
Definition origin_truthy (o : option string) : bool :=
  match o with
  | Some s => negb (String.eqb s "")
  | None => false
  end.

(** [e.origin === channel.origin]. *)
Definition origin_is (o : string) (pinned : option string) : bool :=
  match pinned with
  | Some p => String.eqb o p
  | None => false
  end.

(** [channel.source !== e.source] for a non-null [e.source]. *)
Definition source_differs (cur : option Source) (w : Source) : bool :=
  match cur with
  | Some c => negb (Nat.eqb c w)
  | None => true
  end.

(** ** Observations on the trace *)

(** The [(type, data)] pairs handed to the peer sink, oldest first. *)
Definition posted_payload (ev : Effect) : option (string * JsVal) :=
  match ev with
  | PostMessage _ m _ => Some (msg_type m, msg_data m)
  | _ => None
  end.

Definition posted (tr : list Effect) : list (string * JsVal) :=
  omap posted_payload tr.

(** The arguments of the calls of the application handler. *)
Definition handler_call (ev : Effect) : option (JsVal * JsVal) :=
  match ev with
  | OnEvent t d => Some (t, d)
  | _ => None
  end.

Definition handler_calls (tr : list Effect) : list (JsVal * JsVal) :=
  omap handler_call tr.

(** What the surroundings do with a node: the owner calls the public
    [send] or [destroy], the window delivers a message event. *)
Inductive Op : Type :=
| CallSend (type : string) (data : JsVal)
| Deliver (e : MessageEvent)
| CallDestroy.

(** ** Configuration and the helpers of [./helpers] *)

(** [ChannelsNodeOptions]: the two identifiers and whether each optional
    callback is registered.  A registered callback is an observer: its call
    is recorded in the trace, it returns normally and does not call back
    into the node. *)
Record ChannelsNodeOptions : Type := mkOptions {
  cfg_id : string;
  cfg_connectTo : string;
  cfg_onEvent : bool;
  cfg_onStatusUpdate : bool
}.

(** The three predicates imported from [./helpers], which is missing: the
    node is verified for any such predicates, taken to answer without
    throwing, and a statement that needs a fact about them has it as a
    premise. *)
Record Helpers : Type := mkHelpers {
  isHandshakeMessage : string -> bool;
  isInternalMessage : string -> bool;
  isLegacyHandshakeMessage : MessageEvent -> bool
}.

Definition DOMAIN : string := "sanity/channels".

Module ChannelsNode.
Section Node.

Variable config : ChannelsNodeOptions.
Variable helpers : Helpers.

(** The transport: [postMessage sink msg targetOrigin] tells whether the
    call returns ([true]) or throws ([false]). *)
Variable postMessage : Source -> ProtocolMsg -> string -> bool.

(** [isHandshakeMessage(data.type)] on a value read from the wire: the helper
    is a type guard for a union of string literals, so a value that is not a
    string is not a handshake type. *)
Definition isHandshakeValue (v : JsVal) : bool :=
  match v with
  | JStr s => isHandshakeMessage helpers s
  | _ => false
  end.

(** An application type: neither handshake nor internal. *)
Definition isApplicationType (t : string) : bool :=
  negb (isHandshakeMessage helpers t) && negb (isInternalMessage helpers t).

(** [send], node.ts:41-73. *)
Definition send (type : string) (data : JsVal) : M unit :=
  ch <- get_channel ;;
  if negb (isHandshakeMessage helpers type)
     && negb (isInternalMessage helpers type)
     && (status_eqb (ch_status ch) Connecting
         || status_eqb (ch_status ch) Reconnecting)
  then modify_channel (fun c => set_buffer (ch_buffer c ++ [(type, data)]) c)
  else
    (* if (channel.id && channel.origin && channel.source) *)
    match ch_origin ch, ch_source ch with
    | Some target, Some sink =>
        if truthy (ch_id ch) && negb (String.eqb target "") then
          i <- uuid ;;
          let msg := mkMsg (ch_id ch) data DOMAIN (cfg_id config) i
                           (cfg_connectTo config) type in
          if postMessage sink msg target
          then emit (PostMessage sink msg target)
          else throw (PostMessageFailed i (cfg_id config))
        else ret tt
    | _, _ => ret tt
    end.

(** [flush], node.ts:33-39. *)
Definition flush : M unit :=
  ch <- get_channel ;;
  let toFlush := ch_buffer ch in
  modify_channel (set_buffer []) ;;;
  forEach (fun '(type, data) => send type data) toFlush.

(** [setConnectionStatus], node.ts:147-153. *)
Definition setConnectionStatus (next : ChannelStatus) : M unit :=
  modify_channel (set_status next) ;;;
  when (cfg_onStatusUpdate config) (emit (OnStatusUpdate next)) ;;;
  when (status_eqb next Connected) flush.

(** [isValidMessageEvent], node.ts:75-85; [&&] evaluates left to right and
    stops at the first false. *)
Definition isValidMessageEvent (e : MessageEvent) : M bool :=
  let data := ev_data e in
  d <- get_prop data "domain" ;;
  if strict_eq d (JStr DOMAIN) then
    t <- get_prop data "to" ;;
    if strict_eq t (JStr (cfg_id config)) then
      f <- get_prop data "from" ;;
      if strict_eq f (JStr (cfg_connectTo config)) then
        ty <- get_prop data "type" ;;
        ret (negb (strict_eq ty (JStr "channel/response")))
      else ret false
    else ret false
  else ret false.

(** [handleEvents], node.ts:87-134. *)
Definition handleEvents (e : MessageEvent) : M unit :=
  if isLegacyHandshakeMessage helpers e then emit ConsoleError
  else
    valid <- isValidMessageEvent e ;;
    if valid then
      let data := ev_data e in
      ch <- get_channel ;;
      if origin_truthy (ch_origin ch) && negb (origin_is (ev_origin e) (ch_origin ch))
      then ret tt
      else
        match ev_source e with
        | Some w => when (source_differs (ch_source ch) w)
                         (modify_channel (set_source (Some w)))
        | None => ret tt
        end ;;;
        ty <- get_prop data "type" ;;
        payload <- get_prop data "data" ;;
        if isHandshakeValue ty && truthy payload then
          if strict_eq ty (JStr "handshake/syn") then
            modify_channel (set_origin (Some (ev_origin e))) ;;;
            pid <- get_prop payload "id" ;;
            modify_channel (set_id pid) ;;;
            setConnectionStatus Connecting ;;;
            ch' <- get_channel ;;
            send "handshake/syn-ack" (JObj [("id", ch_id ch')])
          else if strict_eq ty (JStr "handshake/ack") then
            pid <- get_prop payload "id" ;;
            ch' <- get_channel ;;
            when (strict_eq pid (ch_id ch')) (setConnectionStatus Connected)
          else ret tt
        else
          cid <- get_prop data "connectionId" ;;
          ch' <- get_channel ;;
          if strict_eq cid (ch_id ch') && origin_is (ev_origin e) (ch_origin ch')
          then
            if strict_eq ty (JStr "channel/disconnect")
            then setConnectionStatus Disconnected
            else
              when (cfg_onEvent config) (emit (OnEvent ty payload)) ;;;
              mid <- get_prop data "id" ;;
              send "channel/response" (JObj [("responseTo", mid)])
          else ret tt
    else ret tt.

(** [disconnect], node.ts:136-140; the [send] in it is commented out. *)
Definition disconnect : M unit :=
  ch <- get_channel ;;
  if status_eqb (ch_status ch) Disconnected then ret tt
  else setConnectionStatus Disconnected.

(** [destroy], node.ts:142-145. *)
Definition destroy : M unit :=
  disconnect ;;; set_listening false.

(** [initialise], node.ts:155-158. *)
Definition initialise : M unit :=
  set_listening true ;;; setConnectionStatus Connecting.

(** [sendPublic], node.ts:162-167. *)
Definition sendPublic (type : string) (data : JsVal) : M unit := send type data.

(** The state at the first line of [createChannelsNode], and the node it
    returns (after [initialise()]).  [inFrame] is a property of the window and
    plays no part in the channel. *)
Definition fresh : NodeState :=
  mkNode (mkChannel [] JNull None None Connecting) 0 false [].

Definition createChannelsNode : NodeState := snd (initialise fresh).

(** *** Notions used to state the properties *)

(** Values whose properties cannot be read. *)
Definition nullish (v : JsVal) : bool :=
  match v with
  | JNull | JUndefined => true
  | _ => false
  end.

(** What [isValidMessageEvent] answers when it answers. *)
Definition well_addressed (e : MessageEvent) : bool :=
  let data := ev_data e in
  strict_eq (field_of data "domain") (JStr DOMAIN)
  && strict_eq (field_of data "to") (JStr (cfg_id config))
  && strict_eq (field_of data "from") (JStr (cfg_connectTo config))
  && negb (strict_eq (field_of data "type") (JStr "channel/response")).

(** Whether [send] takes the buffering branch. *)
Definition buffers (type : string) (s : NodeState) : bool :=
  isApplicationType type
  && (status_eqb (ch_status (channel s)) Connecting
      || status_eqb (ch_status (channel s)) Reconnecting).

(** The envelope [send] builds. *)
Definition outgoing (type : string) (data : JsVal) (s : NodeState) : ProtocolMsg :=
  mkMsg (ch_id (channel s)) data DOMAIN (cfg_id config) (next_uuid s)
        (cfg_connectTo config) type.

(** The status report handed to [config.onStatusUpdate], if registered. *)
Definition status_report (next : ChannelStatus) : list Effect :=
  if cfg_onStatusUpdate config then [OnStatusUpdate next] else [].

(** Statuses in which [send] never buffers. *)
Definition passing (s : NodeState) : bool :=
  negb (status_eqb (ch_status (channel s)) Connecting
        || status_eqb (ch_status (channel s)) Reconnecting).

(** The origin check of [handleEvents]: an origin is pinned and the
    event comes from another one. *)
Definition origin_rejected (e : MessageEvent) (s : NodeState) : bool :=
  origin_truthy (ch_origin (channel s))
  && negb (origin_is (ev_origin e) (ch_origin (channel s))).

(** The state after the update of the sink reference in [handleEvents]. *)
Definition source_updated (e : MessageEvent) (s : NodeState) : NodeState :=
  match ev_source e with
  | Some w => if source_differs (ch_source (channel s)) w
              then with_channel (set_source (Some w)) s
              else s
  | None => s
  end.

(** The sink a reply to event [e] goes to: the source of the event, or the
    sink known before when the event has none. *)
Definition reply_sink (e : MessageEvent) (s : NodeState) : option Source :=
  match ev_source e with
  | Some w => Some w
  | None => ch_source (channel s)
  end.

(** The events [handleEvents] hands to the application handler. *)
Definition reaches_handler (e : MessageEvent) (s : NodeState) : bool :=
  negb (isLegacyHandshakeMessage helpers e)
  && negb (nullish (ev_data e))
  && well_addressed e
  && negb (origin_rejected e s)
  && negb (isHandshakeValue (field_of (ev_data e) "type")
           && truthy (field_of (ev_data e) "data"))
  && strict_eq (field_of (ev_data e) "connectionId") (ch_id (channel s))
  && origin_is (ev_origin e) (ch_origin (channel s))
  && negb (strict_eq (field_of (ev_data e) "type") (JStr "channel/disconnect"))
  && cfg_onEvent config.

(** The status [handleEvents] sets for an event, if it sets one. *)
Definition status_change (e : MessageEvent) (s : NodeState) : option ChannelStatus :=
  let ty := field_of (ev_data e) "type" in
  let payload := field_of (ev_data e) "data" in
  if isLegacyHandshakeMessage helpers e || nullish (ev_data e)
     || negb (well_addressed e) || origin_rejected e s
  then None
  else if isHandshakeValue ty && truthy payload then
    if strict_eq ty (JStr "handshake/syn") then Some Connecting
    else if strict_eq ty (JStr "handshake/ack")
            && strict_eq (field_of payload "id") (ch_id (channel s))
    then Some Connected
    else None
  else if strict_eq (field_of (ev_data e) "connectionId") (ch_id (channel s))
          && origin_is (ev_origin e) (ch_origin (channel s))
          && strict_eq ty (JStr "channel/disconnect")
  then Some Disconnected
  else None.

(** One operation of the surroundings.  An exception surfaces in the
    caller (or the event loop) and the node lives on in the state the
    interrupted operation left.  A message event reaches [handleEvents]
    only while the listener is installed. *)
Definition step (op : Op) (s : NodeState) : NodeState :=
  match op with
  | CallSend type data => after (sendPublic type data) s
  | Deliver e => if listening s then after (handleEvents e) s else s
  | CallDestroy => after destroy s
  end.

Definition run (ops : list Op) (s : NodeState) : NodeState :=
  fold_left (fun s op => step op s) ops s.

(** The application payloads among a list of [(type, data)] pairs. *)
Definition application_payloads (l : list (string * JsVal)) : list (string * JsVal) :=
  List.filter (fun p => isApplicationType (fst p)) l.

(** The application payloads handed to the peer sink so far. *)
Definition wire (s : NodeState) : list (string * JsVal) :=
  application_payloads (posted (trace s)).

(** All entries are application payloads. *)
Definition all_application (l : list (string * JsVal)) : bool :=
  forallb (fun p => isApplicationType (fst p)) l.

(** The [(type, data)] pairs submitted through the public [send]. *)
Definition submitted (ops : list Op) : list (string * JsVal) :=
  omap (fun op => match op with
                  | CallSend t d => Some (t, d)
                  | _ => None
                  end) ops.

(** No [send] is called while the status is 'disconnected'. *)
Fixpoint sends_while_live (ops : list Op) (s : NodeState) : bool :=
  match ops with
  | [] => true
  | op :: rest =>
      match op with
      | CallSend _ _ => negb (status_eqb (ch_status (channel s)) Disconnected)
      | _ => true
      end && sends_while_live rest (step op s)
  end.

(** What holds between the submissions so far, [sub], and a node on which
    no [send] was called while 'disconnected': the buffer is empty whenever
    the status is 'connected', holds application payloads only, and what
    reached the sink followed by what waits in the buffer is [sub] with
    entries left out. *)
Definition order_invariant (s : NodeState) (sub : list (string * JsVal)) : Prop :=
  (ch_status (channel s) = Connected -> ch_buffer (channel s) = []) /\
  ch_status (channel s) <> Unhealthy /\
  all_application (ch_buffer (channel s)) = true /\
  wire s ++ ch_buffer (channel s) `sublist_of` sub.

(** *** Further notions: reports, envelopes, quiet runs *)

(** The statuses handed to the status callback, oldest first. *)
Definition status_reported (ev : Effect) : option ChannelStatus :=
  match ev with
  | OnStatusUpdate next => Some next
  | _ => None
  end.

Definition status_reports (tr : list Effect) : list ChannelStatus :=
  omap status_reported tr.

Definition is_post (ev : Effect) : bool :=
  match ev with
  | PostMessage _ _ _ => true
  | _ => false
  end.

(** An effect that is no call of [postMessage], or one whose envelope
    bears the domain tag, the two identifiers of the configuration and a
    truthy session id, and whose target origin is not the empty string. *)
Definition envelope_ok (ev : Effect) : bool :=
  match ev with
  | PostMessage _ m target =>
      String.eqb (msg_domain m) DOMAIN
      && String.eqb (msg_from m) (cfg_id config)
      && String.eqb (msg_to m) (cfg_connectTo config)
      && truthy (msg_connectionId m)
      && negb (String.eqb target "")
  | _ => true
  end.

(** The trace of [s'] is the trace of [s] with effects added that all
    satisfy [P]. *)
Definition trace_extends (P : Effect -> Prop) (s s' : NodeState) : Prop :=
  exists tl, trace s' = trace s ++ tl /\ Forall P tl.

(** What [send] may add to the trace. *)
Definition sent (ev : Effect) : Prop := is_post ev = true /\ envelope_ok ev = true.

(** Whatever the node may add to the trace. *)
Definition emitted (ev : Effect) : Prop := envelope_ok ev = true.

(** The statuses [node.ts] ever assigns. *)
Definition assigned_status (st : ChannelStatus) : bool :=
  match st with
  | Connecting | Connected | Disconnected => true
  | Reconnecting | Unhealthy => false
  end.

(** The buffer holds application payloads only, and nothing while the
    status is 'connected'. *)
Definition buffer_disciplined (c : ChannelsNodeChannel) : Prop :=
  all_application (ch_buffer c) = true /\
  (ch_status c = Connected -> ch_buffer c = []).

(** The status is 'connecting' at the start of the run and after each of
    its operations. *)
Fixpoint always_connecting (ops : list Op) (s : NodeState) : bool :=
  status_eqb (ch_status (channel s)) Connecting
  && match ops with
     | [] => true
     | op :: rest => always_connecting rest (step op s)
     end.

(** *** Further notions: the peers a node talks to *)

(** A call of [postMessage] with the sink and the origin the channel of
    [s] holds; any other effect. *)
Definition held_peer (s : NodeState) (ev : Effect) : Prop :=
  match ev with
  | PostMessage sink _ target =>
      ch_source (channel s) = Some sink /\ ch_origin (channel s) = Some target
  | _ => True
  end.

(** A call of [postMessage] whose sink is the one held in [s] or the
    source of [e], and whose target is the origin held in [s] or the origin
    of [e]; any other effect. *)
Definition peer_of (e : MessageEvent) (s : NodeState) (ev : Effect) : Prop :=
  match ev with
  | PostMessage sink _ target =>
      (ch_source (channel s) = Some sink \/ ev_source e = Some sink) /\
      (ch_origin (channel s) = Some target \/ ev_origin e = target)
  | _ => True
  end.

(** Some event delivered in [ops] came from origin [o], from source [w]. *)
Definition from_origin (ops : list Op) (o : string) : Prop :=
  exists e, In (Deliver e) ops /\ ev_origin e = o.

Definition from_source (ops : list Op) (w : Source) : Prop :=
  exists e, In (Deliver e) ops /\ ev_source e = Some w.

Definition to_known_peer (ops : list Op) (ev : Effect) : Prop :=
  match ev with
  | PostMessage sink _ target => from_source ops sink /\ from_origin ops target
  | _ => True
  end.

(** The origin and the sink the channel holds, and the sink and target of
    every call of [postMessage] so far, are those of delivered events. *)
Definition peers_known (ops : list Op) (s : NodeState) : Prop :=
  (forall o, ch_origin (channel s) = Some o -> from_origin ops o) /\
  (forall w, ch_source (channel s) = Some w -> from_source ops w) /\
  Forall (to_known_peer ops) (trace s).

End Node.
End ChannelsNode.

(** ** A concrete instance *)

(** Modelled from the spec: the constants behind [./helpers] are missing;
    the handshake types are open, acknowledge and confirm, the internal types
    the disconnect notice and the response, under the names [node.ts] uses. *)
Definition HANDSHAKE_MSG_TYPES : list string :=
  ["handshake/syn"; "handshake/syn-ack"; "handshake/ack"].

Definition INTERNAL_MSG_TYPES : list string :=
  ["channel/disconnect"; "channel/response"].

Definition one_of (ts : list string) (t : string) : bool :=
  existsb (String.eqb t) ts.

(** Modelled from the spec: [./helpers] is missing; the spec calls a legacy
    handshake a differently-shaped handshake payload of an older protocol
    version.  Here: an object whose type is a handshake type and that does
    not carry the domain tag. *)
Definition legacy_shape (e : MessageEvent) : bool :=
  match ev_data e with
  | JObj fs =>
      match lookup_field "type" fs with
      | JStr t => one_of HANDSHAKE_MSG_TYPES t
                  && negb (strict_eq (lookup_field "domain" fs) (JStr DOMAIN))
      | _ => false
      end
  | _ => false
  end.

(** The helpers over these constants. *)
Definition std_helpers : Helpers :=
  mkHelpers (one_of HANDSHAKE_MSG_TYPES) (one_of INTERNAL_MSG_TYPES) legacy_shape.

Definition overlays : ChannelsNodeOptions := mkOptions "overlays" "presentation" true true.

Definition reliable : Source -> ProtocolMsg -> string -> bool := fun _ _ _ => true.

(** An envelope as the peer of [overlays] writes it. *)
Definition envelope (type : string) (connectionId data : JsVal) (id : string) : JsVal :=
  JObj [("domain", JStr DOMAIN); ("to", JStr "overlays"); ("from", JStr "presentation");
        ("type", JStr type); ("connectionId", connectionId); ("data", data);
        ("id", JStr id)].

Definition studio : string := "https://studio.example".
Definition elsewhere : string := "https://evil.example".

Definition syn_event : MessageEvent :=
  mkEvent (envelope "handshake/syn" JNull (JObj [("id", JStr "s1")]) "m1") studio (Some 1).

Definition ack_event : MessageEvent :=
  mkEvent (envelope "handshake/ack" (JStr "s1") (JObj [("id", JStr "s1")]) "m2") studio (Some 1).

Definition disconnect_event : MessageEvent :=
  mkEvent (envelope "channel/disconnect" (JStr "s1") JUndefined "m3") studio (Some 1).

Definition ping_event : MessageEvent :=
  mkEvent (envelope "ping" (JStr "s1") (JObj [("n", JNum 1)]) "m4") studio (Some 1).

Definition response_event : MessageEvent :=
  mkEvent (envelope "channel/response" (JStr "s1") (JObj [("responseTo", JStr "m0")]) "m5")
          studio (Some 1).

(** [window.postMessage(null, '*')] by any script on the page. *)
Definition null_event : MessageEvent := mkEvent JNull studio (Some 1).

(** A synthetic event, dispatched on the window by a script of the page:
    its origin is the empty string. *)
Definition synthetic_syn_event : MessageEvent :=
  mkEvent (envelope "handshake/syn" JNull (JObj [("id", JStr "s1")]) "m1") "" (Some 1).

Definition foreign_syn_event : MessageEvent :=
  mkEvent (envelope "handshake/syn" JNull (JObj [("id", JStr "x")]) "m6") elsewhere (Some 2).

Definition foreign_ping_event : MessageEvent :=
  mkEvent (envelope "ping" (JStr "s1") (JObj [("n", JNum 1)]) "m7") elsewhere (Some 7).

Definition stale_ping_event : MessageEvent :=
  mkEvent (envelope "ping" (JStr "s0") (JObj [("n", JNum 1)]) "m8") studio (Some 1).

(** Events without a source. *)
Definition sourceless_syn_event : MessageEvent :=
  mkEvent (envelope "handshake/syn" JNull (JObj [("id", JStr "s1")]) "m1") studio None.

Definition sourceless_ping_event : MessageEvent :=
  mkEvent (envelope "ping" (JStr "s1") (JObj [("n", JNum 1)]) "m4") studio None.

(** A handshake-open that carries no payload. *)
Definition bare_syn_event : MessageEvent :=
  mkEvent (envelope "handshake/syn" JNull JUndefined "m1") studio (Some 1).

Definition deliver (e : MessageEvent) (s : NodeState) : NodeState :=
  after (ChannelsNode.handleEvents overlays std_helpers reliable e) s.

Definition call_send (type : string) (data : JsVal) (s : NodeState) : NodeState :=
  after (ChannelsNode.send overlays std_helpers reliable type data) s.

Definition node0 : NodeState := ChannelsNode.createChannelsNode overlays std_helpers reliable.
Definition node_syn : NodeState := deliver syn_event node0.
Definition node_connected : NodeState := deliver ack_event node_syn.
Definition node_disconnected : NodeState := deliver disconnect_event node_syn.
Definition node_buffered : NodeState :=
  call_send "b" (JNum 2) (call_send "a" (JNum 1) node_syn).

(** A transport that throws on every call. *)
Definition refusing : Source -> ProtocolMsg -> string -> bool := fun _ _ _ => false.

(** An envelope of the same peer for another node of the page. *)
Definition loaders_ping_event : MessageEvent :=
  mkEvent (JObj [("domain", JStr DOMAIN); ("to", JStr "loaders");
                 ("from", JStr "presentation"); ("type", JStr "ping");
                 ("connectionId", JStr "s1"); ("data", JObj [("n", JNum 1)]);
                 ("id", JStr "m9")])
          studio (Some 1).


(** An envelope of a stale session from the pinned origin, sent from
    another window. *)
Definition roaming_ping_event : MessageEvent :=
  mkEvent (envelope "ping" (JStr "s0") (JObj [("n", JNum 1)]) "m10") studio (Some 3).

Definition node_destroyed : NodeState :=
  after (ChannelsNode.destroy overlays std_helpers reliable) node_connected.

(** * Properties *)

(** Reduce projections of explicitly built states, and nothing else. *)
Ltac proj :=
  cbn [fst snd after trace channel next_uuid listening recorded with_channel uuid_taken
       ch_id ch_origin ch_source ch_status ch_buffer
       set_id set_origin set_source set_status set_buffer].

Lemma after_bind {A B} (m : M A) (k : A -> M B) s :
  after (bind m k) s =
  match fst (m s) with
  | Normal a => after (k a) (after m s)
  | Thrown _ => after m s
  end.
Proof. unfold after, bind. now destruct (m s) as [[a|e] s1]. Qed.

Lemma bind_ext {A B} (m : M A) (k k' : A -> M B) s :
  (forall a s', k a s' = k' a s') -> bind m k s = bind m k' s.
Proof. intros H. unfold bind. destruct (m s) as [[a|e] s1]; [apply H | reflexivity]. Qed.

Section NodeFacts.

Variable config : ChannelsNodeOptions.
Variable helpers : Helpers.
Variable postMessage : Source -> ProtocolMsg -> string -> bool.

(** Within this section the operations are those of the node configured by
    [config], [helpers] and [postMessage]. *)
Local Abbreviation send := (ChannelsNode.send config helpers postMessage).
Local Abbreviation flush := (ChannelsNode.flush config helpers postMessage).
Local Abbreviation setConnectionStatus := (ChannelsNode.setConnectionStatus config helpers postMessage).
Local Abbreviation handleEvents := (ChannelsNode.handleEvents config helpers postMessage).
Local Abbreviation isValidMessageEvent := (ChannelsNode.isValidMessageEvent config).
Local Abbreviation disconnect := (ChannelsNode.disconnect config helpers postMessage).
Local Abbreviation buffers := (ChannelsNode.buffers helpers).
Local Abbreviation outgoing := (ChannelsNode.outgoing config).
Local Abbreviation status_report := (ChannelsNode.status_report config).
Local Abbreviation well_addressed := (ChannelsNode.well_addressed config).
Local Abbreviation passing := ChannelsNode.passing.
Local Abbreviation nullish := ChannelsNode.nullish.
Local Abbreviation reply_sink := ChannelsNode.reply_sink.
Local Abbreviation wire := (ChannelsNode.wire helpers).
Local Abbreviation application_payloads := (ChannelsNode.application_payloads helpers).
Local Abbreviation all_application := (ChannelsNode.all_application helpers).
Local Abbreviation order_invariant := (ChannelsNode.order_invariant helpers).
Local Abbreviation step := (ChannelsNode.step config helpers postMessage).
Local Abbreviation run := (ChannelsNode.run config helpers postMessage).
Local Abbreviation sends_while_live := (ChannelsNode.sends_while_live config helpers postMessage).
Local Abbreviation destroy := (ChannelsNode.destroy config helpers postMessage).
Local Abbreviation createChannelsNode := (ChannelsNode.createChannelsNode config helpers postMessage).
Local Abbreviation submitted := ChannelsNode.submitted.
Local Abbreviation status_change := (ChannelsNode.status_change config helpers).
Local Abbreviation reaches_handler := (ChannelsNode.reaches_handler config helpers).
Local Abbreviation isApplicationType := (ChannelsNode.isApplicationType helpers).
Local Abbreviation origin_rejected := ChannelsNode.origin_rejected.
Local Abbreviation source_updated := ChannelsNode.source_updated.
Local Abbreviation isHandshakeValue := (ChannelsNode.isHandshakeValue helpers).

Lemma send_buffering type data s :
  buffers type s = true ->
  send type data s =
    (Normal tt, with_channel (set_buffer (ch_buffer (channel s) ++ [(type, data)])) s).
Proof.
  unfold ChannelsNode.buffers, ChannelsNode.isApplicationType, ChannelsNode.send, bind, get_channel, modify_channel.
  intros H. cbn. rewrite H. reflexivity.
Qed.

Lemma send_passing type data s :
  buffers type s = false ->
  send type data s = (Normal tt, s)
  \/ (exists sink target,
        ch_source (channel s) = Some sink /\ ch_origin (channel s) = Some target /\
        truthy (ch_id (channel s)) = true /\ target <> "" /\
        ((postMessage sink (outgoing type data s) target = true /\
          send type data s =
            (Normal tt, recorded [PostMessage sink (outgoing type data s) target]
                                 (uuid_taken s)))
         \/ (postMessage sink (outgoing type data s) target = false /\
             send type data s =
               (Thrown (PostMessageFailed (next_uuid s) (cfg_id config)), uuid_taken s)))).
Proof.
  unfold ChannelsNode.buffers, ChannelsNode.isApplicationType, ChannelsNode.send, bind, get_channel. cbn.
  intros ->.
  destruct (ch_origin (channel s)) as [target|] eqn:Ho; [|now left].
  destruct (ch_source (channel s)) as [sink|] eqn:Hs; [|now left].
  destruct (truthy (ch_id (channel s))) eqn:Ht; [|now left].
  destruct (String.eqb target "") eqn:He; [now left|].
  right. exists sink, target. cbn.
  apply String.eqb_neq in He.
  repeat split; try assumption.
  unfold ChannelsNode.outgoing.
  destruct (postMessage sink _ target) eqn:Hp; [left | right]; split; reflexivity.
Qed.

Lemma passing_not_buffers type s : passing s = true -> buffers type s = false.
Proof.
  unfold ChannelsNode.passing, ChannelsNode.buffers. intros H.
  apply negb_true_iff in H. rewrite H. apply andb_false_r.
Qed.

(** A passing [send] leaves the channel record alone and adds at most its
    own envelope to the trace. *)
Lemma send_passing_frame type data s :
  buffers type s = false ->
  channel (after (send type data) s) = channel s /\
  listening (after (send type data) s) = listening s /\
  exists tl, trace (after (send type data) s) = trace s ++ tl /\
             handler_calls tl = [] /\
             (posted tl = [] \/
              (posted tl = [(type, data)] /\ fst (send type data s) = Normal tt)).
Proof.
  intros Hb. unfold after.
  destruct (send_passing type data s Hb) as [E | (sink & target & _ & _ & _ & _ & [[_ E] | [_ E]])];
    rewrite E; cbn.
  - repeat split. exists []. rewrite app_nil_r. auto.
  - repeat split. eexists. split; [reflexivity|]. split; [reflexivity|]. right. auto.
  - repeat split. exists []. rewrite app_nil_r. auto.
Qed.

(** Flushing in a passing status: the channel record is untouched and the
    envelopes added to the trace carry entries of the flushed list, in its
    order. *)
Lemma forEach_send_passing xs : forall s,
  passing s = true ->
  let s' := after (forEach (fun '(type, data) => send type data) xs) s in
  channel s' = channel s /\ listening s' = listening s /\
  exists tl, trace s' = trace s ++ tl /\ handler_calls tl = [] /\
             posted tl `sublist_of` xs.
Proof.
  induction xs as [|[type data] xs IH]; intros s Hp.
  - cbn. repeat split. exists []. rewrite app_nil_r. repeat split. apply sublist_nil_l.
  - cbn [forEach]. cbv zeta. rewrite after_bind.
    destruct (send_passing_frame type data s (passing_not_buffers type s Hp))
      as (Hc & Hl & tl & Ht & Hh & Hposted).
    set (s1 := after (send type data) s) in *.
    destruct (fst (send type data s)) as [[]|e] eqn:E.
    + assert (Hp1 : passing s1 = true) by (unfold ChannelsNode.passing in *; rewrite Hc; exact Hp).
      destruct (IH s1 Hp1) as (Hc' & Hl' & tl' & Ht' & Hh' & Hpre).
      rewrite Hc', Hl', Ht', Hc, Hl, Ht. repeat split.
      exists (tl ++ tl'). rewrite app_assoc. split; [reflexivity|].
      unfold handler_calls, posted in *. rewrite !omap_app, Hh, Hh'. split; [reflexivity|].
      destruct Hposted as [-> | [-> _]]; cbn.
      * now apply sublist_cons.
      * now apply sublist_skip.
    + repeat split; try assumption.
      exists tl. repeat split; try assumption.
      destruct Hposted as [-> | [_ Habs]]; [apply sublist_nil_l | discriminate].
Qed.

Lemma get_prop_defined v k s :
  nullish v = false -> get_prop v k s = (Normal (field_of v k), s).
Proof. now destruct v. Qed.

Lemma get_prop_nullish v k s :
  nullish v = true -> get_prop v k s = (Thrown TypeError, s).
Proof. now destruct v. Qed.

Lemma isValidMessageEvent_nullish e s :
  nullish (ev_data e) = true -> isValidMessageEvent e s = (Thrown TypeError, s).
Proof.
  intros H. unfold ChannelsNode.isValidMessageEvent, bind.
  now rewrite (get_prop_nullish _ _ _ H).
Qed.

Lemma isValidMessageEvent_defined e s :
  nullish (ev_data e) = false ->
  isValidMessageEvent e s = (Normal (well_addressed e), s).
Proof.
  intros H. unfold ChannelsNode.isValidMessageEvent, ChannelsNode.well_addressed, bind.
  rewrite (get_prop_defined _ "domain" _ H).
  destruct (strict_eq (field_of (ev_data e) "domain") (JStr DOMAIN)); [|reflexivity].
  rewrite (get_prop_defined _ "to" _ H).
  destruct (strict_eq (field_of (ev_data e) "to") _); [|reflexivity].
  rewrite (get_prop_defined _ "from" _ H).
  destruct (strict_eq (field_of (ev_data e) "from") _); [|reflexivity].
  rewrite (get_prop_defined _ "type" _ H). reflexivity.
Qed.

Lemma valid_event e s :
  isValidMessageEvent e s = (Normal true, s) ->
  nullish (ev_data e) = false /\ well_addressed e = true.
Proof.
  intros H. destruct (nullish (ev_data e)) eqn:Hn.
  - rewrite (isValidMessageEvent_nullish e s Hn) in H. discriminate.
  - rewrite (isValidMessageEvent_defined e s Hn) in H. split; [reflexivity | congruence].
Qed.

(** [setConnectionStatus] for a status other than 'connected'. *)
Lemma setConnectionStatus_plain next s :
  next <> Connected ->
  setConnectionStatus next s =
    (Normal tt, recorded (status_report next) (with_channel (set_status next) s)).
Proof.
  intros Hn. unfold ChannelsNode.setConnectionStatus, ChannelsNode.status_report, bind,
    modify_channel, when, emit, ret, recorded, with_channel.
  destruct next; try congruence; destruct (cfg_onStatusUpdate config); cbn;
    rewrite ?app_nil_r; reflexivity.
Qed.

(** [setConnectionStatus('connected')]: the buffer is emptied, the status
    is reported, and what reaches the sink afterwards are buffered entries
    in buffer order. *)
Lemma setConnectionStatus_connected s :
  let s' := after (setConnectionStatus Connected) s in
  channel s' = set_buffer [] (set_status Connected (channel s)) /\
  listening s' = listening s /\
  exists tl, trace s' = trace s ++ status_report Connected ++ tl /\
             handler_calls tl = [] /\
             posted tl `sublist_of` ch_buffer (channel s).
Proof.
  cbv zeta. unfold ChannelsNode.setConnectionStatus.
  rewrite !after_bind. cbn [modify_channel fst when status_eqb].
  set (s1 := after (modify_channel (set_status Connected)) s).
  assert (E1 : fst (when (cfg_onStatusUpdate config) (emit (OnStatusUpdate Connected)) s1)
               = Normal tt) by (destruct (cfg_onStatusUpdate config); reflexivity).
  rewrite E1.
  set (s2 := after (when (cfg_onStatusUpdate config) (emit (OnStatusUpdate Connected))) s1).
  assert (E2 : s2 = recorded (status_report Connected) s1).
  { unfold s2, ChannelsNode.status_report, after, when, emit, ret, recorded.
    destruct (cfg_onStatusUpdate config); cbn; [reflexivity|].
    rewrite app_nil_r. now destruct s1. }
  unfold ChannelsNode.flush. rewrite !after_bind. cbn [get_channel modify_channel fst after snd].
  set (s3 := with_channel (set_buffer []) s2).
  assert (Hp : passing s3 = true) by (unfold s3; rewrite E2; reflexivity).
  destruct (forEach_send_passing (ch_buffer (channel s2)) s3 Hp) as (Hc & Hl & tl & Ht & Hh & Hsub).
  rewrite after_bind. cbn [modify_channel fst].
  change (after (modify_channel (set_buffer [])) s2) with s3.
  rewrite Hc, Hl, Ht. unfold s3. rewrite E2. cbn. repeat split.
  exists tl. rewrite app_assoc. repeat split; try assumption.
  rewrite E2 in Hsub. exact Hsub.
Qed.

(** The four ways [handleEvents] turns an event away before routing. *)
Lemma handleEvents_legacy e s :
  isLegacyHandshakeMessage helpers e = true ->
  handleEvents e s = (Normal tt, recorded [ConsoleError] s).
Proof. intros H. unfold ChannelsNode.handleEvents. now rewrite H. Qed.

Lemma handleEvents_nullish e s :
  isLegacyHandshakeMessage helpers e = false ->
  nullish (ev_data e) = true ->
  handleEvents e s = (Thrown TypeError, s).
Proof.
  intros Hl Hn. unfold ChannelsNode.handleEvents, bind.
  now rewrite Hl, (isValidMessageEvent_nullish e s Hn).
Qed.

Lemma handleEvents_invalid e s :
  isLegacyHandshakeMessage helpers e = false ->
  nullish (ev_data e) = false ->
  well_addressed e = false ->
  handleEvents e s = (Normal tt, s).
Proof.
  intros Hl Hn Hw. unfold ChannelsNode.handleEvents, bind.
  now rewrite Hl, (isValidMessageEvent_defined e s Hn), Hw.
Qed.

Lemma handleEvents_foreign_origin e s :
  isLegacyHandshakeMessage helpers e = false ->
  nullish (ev_data e) = false ->
  well_addressed e = true ->
  origin_rejected e s = true ->
  handleEvents e s = (Normal tt, s).
Proof.
  intros Hl Hn Hw Ho. unfold ChannelsNode.handleEvents, bind.
  rewrite Hl, (isValidMessageEvent_defined e s Hn), Hw.
  cbn [get_channel]. unfold ChannelsNode.origin_rejected in Ho. now rewrite Ho.
Qed.

(** Routing of an event that passed validation and the origin check, with
    the property reads resolved. *)
Lemma handleEvents_routed e s :
  isLegacyHandshakeMessage helpers e = false ->
  nullish (ev_data e) = false ->
  well_addressed e = true ->
  origin_rejected e s = false ->
  let ty := field_of (ev_data e) "type" in
  let payload := field_of (ev_data e) "data" in
  let s1 := source_updated e s in
  handleEvents e s =
    if isHandshakeValue ty && truthy payload then
      if strict_eq ty (JStr "handshake/syn") then
        (setConnectionStatus Connecting ;;;
         ch' <- get_channel ;;
         send "handshake/syn-ack" (JObj [("id", ch_id ch')]))
          (with_channel (set_id (field_of payload "id"))
             (with_channel (set_origin (Some (ev_origin e))) s1))
      else if strict_eq ty (JStr "handshake/ack") then
        when (strict_eq (field_of payload "id") (ch_id (channel s1)))
             (setConnectionStatus Connected) s1
      else (Normal tt, s1)
    else
      if strict_eq (field_of (ev_data e) "connectionId") (ch_id (channel s1))
         && origin_is (ev_origin e) (ch_origin (channel s1))
      then
        if strict_eq ty (JStr "channel/disconnect")
        then setConnectionStatus Disconnected s1
        else
          (when (cfg_onEvent config) (emit (OnEvent ty payload)) ;;;
           send "channel/response" (JObj [("responseTo", field_of (ev_data e) "id")])) s1
      else (Normal tt, s1).
Proof.
  intros Hl Hn Hw Ho. cbv zeta.
  unfold ChannelsNode.handleEvents.
  rewrite Hl. unfold bind at 1. rewrite (isValidMessageEvent_defined e s Hn), Hw.
  unfold bind at 1. cbn [get_channel].
  unfold ChannelsNode.origin_rejected in Ho. rewrite Ho.
  unfold bind at 1.
  assert (Hs : (match ev_source e with
                | Some w => when (source_differs (ch_source (channel s)) w)
                              (modify_channel (set_source (Some w)))
                | None => ret tt
                end) s = (Normal tt, source_updated e s)).
  { unfold ChannelsNode.source_updated. destruct (ev_source e) as [w|]; [|reflexivity].
    unfold when. now destruct (source_differs (ch_source (channel s)) w). }
  rewrite Hs. clear Hs.
  set (s1 := source_updated e s).
  unfold bind at 1. rewrite (get_prop_defined _ "type" _ Hn).
  unfold bind at 1. rewrite (get_prop_defined _ "data" _ Hn).
  fold (isHandshakeValue (field_of (ev_data e) "type")).
  destruct (isHandshakeValue (field_of (ev_data e) "type") && truthy (field_of (ev_data e) "data"))
    eqn:Hh.
  - assert (Hpn : nullish (field_of (ev_data e) "data") = false).
    { apply andb_true_iff in Hh as [_ Ht]. now destruct (field_of (ev_data e) "data"). }
    destruct (strict_eq (field_of (ev_data e) "type") (JStr "handshake/syn")).
    + unfold bind at 1. cbn [modify_channel].
      unfold bind at 1. rewrite (get_prop_defined _ "id" _ Hpn).
      unfold bind at 1. cbn [modify_channel]. reflexivity.
    + destruct (strict_eq (field_of (ev_data e) "type") (JStr "handshake/ack")); [|reflexivity].
      unfold bind at 1. rewrite (get_prop_defined _ "id" _ Hpn).
      unfold bind at 1. cbn [get_channel]. reflexivity.
  - unfold bind at 1. rewrite (get_prop_defined _ "connectionId" _ Hn).
    unfold bind at 1. cbn [get_channel].
    destruct (strict_eq (field_of (ev_data e) "connectionId") (ch_id (channel s1))
              && origin_is (ev_origin e) (ch_origin (channel s1))); [|reflexivity].
    destruct (strict_eq (field_of (ev_data e) "type") (JStr "channel/disconnect")); [reflexivity|].
    apply bind_ext. intros _ s2. unfold bind at 1.
    now rewrite (get_prop_defined _ "id" _ Hn).
Qed.

Lemma handler_calls_app tr tl :
  handler_calls (tr ++ tl) = handler_calls tr ++ handler_calls tl.
Proof. apply omap_app. Qed.

Lemma handler_calls_status_report next : handler_calls (status_report next) = [].
Proof. unfold ChannelsNode.status_report. now destruct (cfg_onStatusUpdate config). Qed.

Lemma posted_status_report next : posted (status_report next) = [].
Proof. unfold ChannelsNode.status_report. now destruct (cfg_onStatusUpdate config). Qed.

(** What no [send] touches: the pinned identifiers, the sink, the status,
    the listener, and the calls of the application handler. *)
Lemma send_frame type data s :
  let s' := after (send type data) s in
  ch_id (channel s') = ch_id (channel s) /\
  ch_origin (channel s') = ch_origin (channel s) /\
  ch_source (channel s') = ch_source (channel s) /\
  ch_status (channel s') = ch_status (channel s) /\
  listening s' = listening s /\
  handler_calls (trace s') = handler_calls (trace s).
Proof.
  cbv zeta. destruct (buffers type s) eqn:Hb.
  - unfold after. rewrite (send_buffering type data s Hb). cbn. repeat split.
  - destruct (send_passing_frame type data s Hb) as (Hc & Hl & tl & Ht & Hh & _).
    rewrite Hc, Hl, Ht, handler_calls_app, Hh, app_nil_r. repeat split.
Qed.

Lemma setConnectionStatus_frame next s :
  let s' := after (setConnectionStatus next) s in
  ch_id (channel s') = ch_id (channel s) /\
  ch_origin (channel s') = ch_origin (channel s) /\
  ch_source (channel s') = ch_source (channel s) /\
  ch_status (channel s') = next /\
  listening s' = listening s /\
  handler_calls (trace s') = handler_calls (trace s).
Proof.
  cbv zeta. destruct (status_eqb next Connected) eqn:E.
  - assert (next = Connected) as -> by (destruct next; cbn in E; congruence).
    destruct (setConnectionStatus_connected s) as (Hc & Hl & tl & Ht & Hh & _).
    rewrite Hc, Hl, Ht, !handler_calls_app, Hh, handler_calls_status_report, !app_nil_r.
    cbn. repeat split.
  - unfold after. rewrite setConnectionStatus_plain by (intros ->; discriminate).
    cbn. rewrite handler_calls_app, handler_calls_status_report, app_nil_r. repeat split.
Qed.

Lemma source_updated_frame e s :
  let s1 := source_updated e s in
  ch_id (channel s1) = ch_id (channel s) /\
  ch_origin (channel s1) = ch_origin (channel s) /\
  ch_status (channel s1) = ch_status (channel s) /\
  ch_buffer (channel s1) = ch_buffer (channel s) /\
  next_uuid s1 = next_uuid s /\
  listening s1 = listening s /\
  trace s1 = trace s.
Proof.
  cbv zeta. unfold ChannelsNode.source_updated.
  destruct (ev_source e) as [w|]; [|repeat split].
  destruct (source_differs (ch_source (channel s)) w); cbn; repeat split.
Qed.

Lemma source_updated_source e s :
  ch_source (channel (source_updated e s)) = ch_source (channel s) \/
  ch_source (channel (source_updated e s)) = ev_source e.
Proof.
  unfold ChannelsNode.source_updated.
  destruct (ev_source e) as [w|]; [|now left].
  destruct (source_differs (ch_source (channel s)) w); [now right | now left].
Qed.

(** C3, amended: once the origin is pinned to a non-empty string, a
    message event from any other origin is turned away whatever its session
    id and type: the node state is the one before, or the one before with
    the console warning added when the event passes for a legacy handshake;
    no handler call, no reply, no change of the channel record. *)
Theorem foreign_origin_rejected e s pinned :
  ch_origin (channel s) = Some pinned ->
  pinned <> "" ->
  ev_origin e <> pinned ->
  after (handleEvents e) s = s \/
  after (handleEvents e) s = recorded [ConsoleError] s.
Proof.
  intros Hp Hne Hdiff.
  assert (Ho : origin_rejected e s = true).
  { unfold ChannelsNode.origin_rejected. rewrite Hp. cbn.
    apply String.eqb_neq in Hne, Hdiff. now rewrite Hne, Hdiff. }
  unfold after.
  destruct (isLegacyHandshakeMessage helpers e) eqn:Hl.
  { rewrite (handleEvents_legacy e s Hl). now right. }
  left.
  destruct (nullish (ev_data e)) eqn:Hn.
  { now rewrite (handleEvents_nullish e s Hl Hn). }
  destruct (well_addressed e) eqn:Hw.
  - now rewrite (handleEvents_foreign_origin e s Hl Hn Hw Ho).
  - now rewrite (handleEvents_invalid e s Hl Hn Hw).
Qed.

(** Past the sink update, nothing in [handleEvents] touches the sink. *)
Lemma source_after_routing e s :
  isLegacyHandshakeMessage helpers e = false ->
  nullish (ev_data e) = false ->
  well_addressed e = true ->
  origin_rejected e s = false ->
  ch_source (channel (after (handleEvents e) s)) = ch_source (channel (source_updated e s)).
Proof.
  intros Hl Hn Hw Ho.
  unfold after. rewrite (handleEvents_routed e s Hl Hn Hw Ho).
  set (s1 := source_updated e s).
  destruct (isHandshakeValue _ && truthy _).
  - destruct (strict_eq _ (JStr "handshake/syn")).
    + match goal with |- context [(?m ;;; ?k) ?x] => fold (after (m ;;; k) x) end.
      rewrite after_bind, setConnectionStatus_plain by discriminate. cbn [fst].
      rewrite after_bind. cbn [get_channel fst].
      match goal with |- context [after (send ?t ?d) ?x] =>
        destruct (send_frame t d x) as (_ & _ & -> & _) end.
      change (after get_channel ?x) with x.
      match goal with |- context [after (setConnectionStatus ?n) ?x] =>
        destruct (setConnectionStatus_frame n x) as (_ & _ & -> & _) end.
      reflexivity.
    + destruct (strict_eq _ (JStr "handshake/ack")); [|reflexivity].
      unfold when. destruct (strict_eq _ (ch_id (channel s1))); [|reflexivity].
      now destruct (setConnectionStatus_frame Connected s1) as (_ & _ & H & _).
  - destruct (strict_eq _ (ch_id (channel s1)) && origin_is _ _); [|reflexivity].
    destruct (strict_eq _ (JStr "channel/disconnect")).
    + now destruct (setConnectionStatus_frame Disconnected s1) as (_ & _ & H & _).
    + match goal with |- context [(?m ;;; ?k) ?x] => fold (after (m ;;; k) x) end.
      rewrite after_bind.
      assert (E : forall x, fst (when (cfg_onEvent config) (emit x) s1) = Normal tt)
        by (intros x; unfold when; now destruct (cfg_onEvent config)).
      rewrite E.
      match goal with |- context [after (send ?t ?d) ?x] =>
        destruct (send_frame t d x) as (_ & _ & -> & _) end.
      unfold when. now destruct (cfg_onEvent config).
Qed.

(** C9, amended: [handleEvents] leaves the sink reference as it was, or
    sets it to the source of the event; the latter only for an event that is
    no legacy handshake, passes [isValidMessageEvent], and passes the origin
    check, which every event does while no non-empty origin is pinned.  An
    event from another origin than a pinned non-empty one never changes the
    sink. *)
Theorem sink_update_condition e s :
  (ch_source (channel (after (handleEvents e) s)) = ch_source (channel s) \/
   (ch_source (channel (after (handleEvents e) s)) = ev_source e /\
    isLegacyHandshakeMessage helpers e = false /\
    isValidMessageEvent e s = (Normal true, s) /\
    origin_rejected e s = false)) /\
  (forall pinned,
      ch_origin (channel s) = Some pinned ->
      pinned <> "" ->
      ev_origin e <> pinned ->
      ch_source (channel (after (handleEvents e) s)) = ch_source (channel s)).
Proof.
  assert (Hmain :
    ch_source (channel (after (handleEvents e) s)) = ch_source (channel s) \/
    (ch_source (channel (after (handleEvents e) s)) = ev_source e /\
     isLegacyHandshakeMessage helpers e = false /\
     isValidMessageEvent e s = (Normal true, s) /\
     origin_rejected e s = false)).
  { destruct (isLegacyHandshakeMessage helpers e) eqn:Hl.
    { left. unfold after. now rewrite (handleEvents_legacy e s Hl). }
    destruct (nullish (ev_data e)) eqn:Hn.
    { left. unfold after. now rewrite (handleEvents_nullish e s Hl Hn). }
    destruct (well_addressed e) eqn:Hw.
    2:{ left. unfold after. now rewrite (handleEvents_invalid e s Hl Hn Hw). }
    destruct (origin_rejected e s) eqn:Ho.
    { left. unfold after. now rewrite (handleEvents_foreign_origin e s Hl Hn Hw Ho). }
    rewrite (source_after_routing e s Hl Hn Hw Ho).
    destruct (source_updated_source e s) as [H | H]; [now left | right].
    repeat split; try assumption.
    now rewrite (isValidMessageEvent_defined e s Hn), Hw. }
  split; [exact Hmain|].
  intros pinned Hp Hne Hdiff.
  destruct Hmain as [H | (_ & _ & _ & Ho)]; [exact H|].
  unfold ChannelsNode.origin_rejected in Ho. rewrite Hp in Ho. cbn in Ho.
  apply String.eqb_neq in Hne, Hdiff. rewrite Hne, Hdiff in Ho. discriminate.
Qed.

(** C7: an event whose data is null or undefined, and which the legacy
    check lets through, makes [handleEvents] throw a TypeError: the read of
    [data.domain] in [isValidMessageEvent] is not guarded.  The node state is
    untouched. *)
Theorem nullish_data_throws e s :
  isLegacyHandshakeMessage helpers e = false ->
  ev_data e = JNull \/ ev_data e = JUndefined ->
  handleEvents e s = (Thrown TypeError, s).
Proof.
  intros Hl Hd. apply handleEvents_nullish; [exact Hl|].
  now destruct Hd as [-> | ->].
Qed.

Lemma disconnect_live s :
  ch_status (channel s) <> Disconnected ->
  disconnect s =
    (Normal tt, recorded (status_report Disconnected)
                         (with_channel (set_status Disconnected) s)).
Proof.
  intros Hs. unfold ChannelsNode.disconnect, bind. cbn [get_channel].
  destruct (status_eqb (ch_status (channel s)) Disconnected) eqn:Hd.
  - destruct (ch_status (channel s)); cbn in Hd; congruence.
  - now rewrite setConnectionStatus_plain by discriminate.
Qed.

(** C5, amended: [disconnect()] on a connection that is not 'disconnected'
    sets the status to 'disconnected' and reports it to the status callback,
    if one is registered; it returns normally and hands nothing to the peer
    sink. *)
Theorem disconnect_is_local s :
  ch_status (channel s) <> Disconnected ->
  disconnect s =
    (Normal tt, recorded (status_report Disconnected)
                         (with_channel (set_status Disconnected) s)) /\
  ch_status (channel (after disconnect s)) = Disconnected /\
  posted (trace (after disconnect s)) = posted (trace s).
Proof.
  intros Hs.
  pose proof (disconnect_live s Hs) as E.
  split; [exact E|]. unfold after. rewrite E. proj. split; [reflexivity|].
  unfold posted. rewrite omap_app. fold (posted (status_report Disconnected)).
  now rewrite posted_status_report, app_nil_r.
Qed.

(** C4, amended: a [send] of an application type while the status is
    'connecting' or 'reconnecting' returns normally with the pair appended to
    the outbound buffer and nothing else changed: nothing is handed to the
    peer sink. *)
Theorem send_buffers_while_connecting type data s :
  isHandshakeMessage helpers type = false ->
  isInternalMessage helpers type = false ->
  ch_status (channel s) = Connecting \/ ch_status (channel s) = Reconnecting ->
  send type data s =
    (Normal tt, with_channel (set_buffer (ch_buffer (channel s) ++ [(type, data)])) s).
Proof.
  intros Hh Hi Hs. apply send_buffering.
  unfold ChannelsNode.buffers, ChannelsNode.isApplicationType. rewrite Hh, Hi.
  now destruct Hs as [-> | ->].
Qed.

Lemma source_updated_reply_sink e s :
  ch_source (channel (source_updated e s)) = reply_sink e s.
Proof.
  unfold ChannelsNode.source_updated, ChannelsNode.reply_sink.
  destruct (ev_source e) as [w|]; [|reflexivity].
  destruct (ch_source (channel s)) as [c|] eqn:Hc; cbn; [|reflexivity].
  destruct (Nat.eqb c w) eqn:E; cbn; [|reflexivity].
  apply Nat.eqb_eq in E. now rewrite Hc, E.
Qed.

(** When the application handler is called, and with what. *)
Lemma handler_calls_handleEvents e s :
  handler_calls (trace (after (handleEvents e) s)) =
  handler_calls (trace s) ++
  (if reaches_handler e s
   then [(field_of (ev_data e) "type", field_of (ev_data e) "data")]
   else []).
Proof.
  unfold ChannelsNode.reaches_handler.
  destruct (isLegacyHandshakeMessage helpers e) eqn:Hl.
  { unfold after. rewrite (handleEvents_legacy e s Hl). proj.
    now rewrite handler_calls_app. }
  destruct (nullish (ev_data e)) eqn:Hn.
  { unfold after. rewrite (handleEvents_nullish e s Hl Hn). cbn. now rewrite app_nil_r. }
  destruct (well_addressed e) eqn:Hw.
  2:{ unfold after. rewrite (handleEvents_invalid e s Hl Hn Hw). cbn. now rewrite app_nil_r. }
  destruct (origin_rejected e s) eqn:Ho.
  { unfold after. rewrite (handleEvents_foreign_origin e s Hl Hn Hw Ho). cbn.
    now rewrite app_nil_r. }
  unfold after. rewrite (handleEvents_routed e s Hl Hn Hw Ho).
  destruct (source_updated_frame e s) as (Hi & Hor & _ & _ & _ & _ & Ht).
  set (s1 := source_updated e s) in *. rewrite Hi, Hor. cbn [negb andb].
  destruct (isHandshakeValue _ && truthy _).
  - cbn [negb andb]. rewrite app_nil_r.
    destruct (strict_eq _ (JStr "handshake/syn")).
    + match goal with |- context [(?m ;;; ?k) ?x] => fold (after (m ;;; k) x) end.
      rewrite after_bind, setConnectionStatus_plain by discriminate. cbn [fst].
      rewrite after_bind. cbn [get_channel fst].
      match goal with |- context [after (send ?t ?d) ?x] =>
        destruct (send_frame t d x) as (_ & _ & _ & _ & _ & ->) end.
      change (after get_channel ?x) with x.
      match goal with |- context [after (setConnectionStatus ?n) ?x] =>
        destruct (setConnectionStatus_frame n x) as (_ & _ & _ & _ & _ & ->) end.
      proj. now rewrite Ht.
    + destruct (strict_eq _ (JStr "handshake/ack")); [|now rewrite <- Ht].
      unfold when. destruct (strict_eq _ (ch_id (channel s))); [|now rewrite <- Ht].
      destruct (setConnectionStatus_frame Connected s1) as (_ & _ & _ & _ & _ & H).
      unfold after in H. now rewrite H, Ht.
  - cbn [negb andb].
    destruct (strict_eq _ (ch_id (channel s)) && origin_is _ _);
      [|cbn [snd]; now rewrite Ht, app_nil_r].
    destruct (strict_eq _ (JStr "channel/disconnect")).
    + cbn [negb andb]. rewrite app_nil_r.
      destruct (setConnectionStatus_frame Disconnected s1) as (_ & _ & _ & _ & _ & H).
      unfold after in H. now rewrite H, Ht.
    + cbn [negb andb].
      match goal with |- context [(?m ;;; ?k) ?x] => fold (after (m ;;; k) x) end.
      rewrite after_bind.
      assert (E : forall x, fst (when (cfg_onEvent config) (emit x) s1) = Normal tt)
        by (intros x; unfold when; now destruct (cfg_onEvent config)).
      rewrite E.
      match goal with |- context [after (send ?t ?d) ?x] =>
        destruct (send_frame t d x) as (_ & _ & _ & _ & _ & ->) end.
      unfold when. destruct (cfg_onEvent config); unfold emit, ret; proj.
      * now rewrite handler_calls_app, Ht.
      * now rewrite Ht, app_nil_r.
Qed.

(** C2: an inbound envelope whose session id is not the one the channel
    holds never reaches the application handler, whatever its type: after
    [handleEvents] the handler has been called exactly as often, and with
    the same arguments, as before.  This covers every state, hence every
    state in which a session id is set. *)
Theorem session_mismatch_never_reaches_handler e s :
  strict_eq (field_of (ev_data e) "connectionId") (ch_id (channel s)) = false ->
  handler_calls (trace (after (handleEvents e) s)) = handler_calls (trace s).
Proof.
  intros Hid. rewrite handler_calls_handleEvents.
  unfold ChannelsNode.reaches_handler. rewrite Hid.
  now rewrite !andb_false_r, app_nil_r.
Qed.

(** A passing [send] with identifier, origin and sink all set, over a
    transport that takes the envelope. *)
Lemma send_posts type data s sink target :
  buffers type s = false ->
  ch_source (channel s) = Some sink ->
  ch_origin (channel s) = Some target ->
  truthy (ch_id (channel s)) = true ->
  target <> "" ->
  postMessage sink (outgoing type data s) target = true ->
  send type data s =
    (Normal tt, recorded [PostMessage sink (outgoing type data s) target] (uuid_taken s)).
Proof.
  intros Hb Hs Ho Ht Hne Hp.
  unfold ChannelsNode.buffers, ChannelsNode.isApplicationType in Hb.
  unfold ChannelsNode.send, bind. cbn [get_channel]. rewrite Hb, Ho, Hs, Ht.
  apply String.eqb_neq in Hne. rewrite Hne. cbn [negb andb uuid].
  unfold ChannelsNode.outgoing in Hp. now rewrite Hp.
Qed.

Lemma origin_is_eq o pinned : origin_is o pinned = true -> pinned = Some o.
Proof.
  destruct pinned as [p|]; cbn; [|discriminate].
  intros H. apply String.eqb_eq in H. now subst.
Qed.

(** C8, amended: given that 'channel/disconnect' and 'channel/response'
    are internal types, (1) an accepted application-type envelope (no legacy
    handshake, valid, session id and origin matching) makes the registered
    application handler run exactly once more, with the type and payload of
    the envelope; when moreover the session id is truthy, the origin is not
    the empty string, a sink is known and the transport takes the envelope, a
    'channel/response' carrying the message id of the envelope is handed to
    that sink right after the handler call; (2) the handler does not run for
    a handshake-type envelope with a truthy payload, nor for
    'channel/disconnect', nor for 'channel/response'. *)
Theorem application_envelope_handled :
  isInternalMessage helpers "channel/disconnect" = true ->
  isInternalMessage helpers "channel/response" = true ->
  (forall e s t,
      isLegacyHandshakeMessage helpers e = false ->
      isValidMessageEvent e s = (Normal true, s) ->
      field_of (ev_data e) "type" = JStr t ->
      isApplicationType t = true ->
      strict_eq (field_of (ev_data e) "connectionId") (ch_id (channel s)) = true ->
      origin_is (ev_origin e) (ch_origin (channel s)) = true ->
      cfg_onEvent config = true ->
      let payload := field_of (ev_data e) "data" in
      let reply := outgoing "channel/response"
                            (JObj [("responseTo", field_of (ev_data e) "id")]) s in
      handler_calls (trace (after (handleEvents e) s)) =
        handler_calls (trace s) ++ [(JStr t, payload)] /\
      (forall sink,
          reply_sink e s = Some sink ->
          truthy (ch_id (channel s)) = true ->
          ev_origin e <> "" ->
          postMessage sink reply (ev_origin e) = true ->
          trace (after (handleEvents e) s) =
            trace s ++ [OnEvent (JStr t) payload; PostMessage sink reply (ev_origin e)]))
  /\
  (forall e s,
      isHandshakeValue (field_of (ev_data e) "type") && truthy (field_of (ev_data e) "data") = true
      \/ field_of (ev_data e) "type" = JStr "channel/disconnect"
      \/ field_of (ev_data e) "type" = JStr "channel/response" ->
      handler_calls (trace (after (handleEvents e) s)) = handler_calls (trace s)).
Proof.
  intros Hdis Hresp. split.
  - intros e s t Hl Hv Hty Happ Hid Hor Hcb. cbv zeta.
    destruct (valid_event e s Hv) as [Hn Hw].
    assert (Ho : origin_rejected e s = false).
    { unfold ChannelsNode.origin_rejected. rewrite Hor. apply andb_false_r. }
    unfold ChannelsNode.isApplicationType in Happ.
    apply andb_true_iff in Happ as [Hnh Hni]. apply negb_true_iff in Hnh, Hni.
    assert (Hnd : strict_eq (JStr t) (JStr "channel/disconnect") = false).
    { cbn. destruct (String.eqb t "channel/disconnect") eqn:E; [|reflexivity].
      apply String.eqb_eq in E. subst t. congruence. }
    split.
    + rewrite handler_calls_handleEvents. unfold ChannelsNode.reaches_handler.
      rewrite Hl, Hn, Hw, Ho, Hid, Hor, Hcb, Hty, Hnd. cbn [ChannelsNode.isHandshakeValue].
      now rewrite Hnh.
    + intros sink Hsink Htr Hne Hpost.
      unfold after. rewrite (handleEvents_routed e s Hl Hn Hw Ho).
      destruct (source_updated_frame e s) as (Hi & Hop & Hst & _ & Hu & _ & Htc).
      pose proof (source_updated_reply_sink e s) as Hsrc. rewrite Hsink in Hsrc.
      set (s1 := source_updated e s) in *.
      rewrite Hty. cbn [ChannelsNode.isHandshakeValue]. rewrite Hnh. cbn [andb].
      rewrite Hi, Hop, Hid, Hor, Hnd. cbn [andb].
      unfold bind at 1. unfold when. rewrite Hcb. cbn [emit].
      set (s2 := recorded _ s1).
      pose proof (origin_is_eq _ _ Hor) as Hpin.
      rewrite (send_posts "channel/response" _ s2 sink (ev_origin e)).
      * unfold s2. proj. rewrite Htc, <- app_assoc. cbn [app].
        unfold ChannelsNode.outgoing. proj. now rewrite Hi, Hu.
      * unfold ChannelsNode.buffers, ChannelsNode.isApplicationType. rewrite Hresp.
        now rewrite andb_false_r.
      * exact Hsrc.
      * unfold s2. proj. now rewrite Hop.
      * unfold s2. proj. now rewrite Hi.
      * exact Hne.
      * unfold ChannelsNode.outgoing, s2. proj. rewrite Hi, Hu. exact Hpost.
  - intros e s H. rewrite handler_calls_handleEvents.
    assert (E : reaches_handler e s = false); [|now rewrite E, app_nil_r].
    unfold ChannelsNode.reaches_handler, ChannelsNode.well_addressed.
    destruct H as [H | [H | H]]; rewrite H; cbn [negb andb strict_eq];
      rewrite ?String.eqb_refl; cbn [negb andb]; now rewrite ?andb_false_r.
Qed.

(** The status after [handleEvents]. *)
Lemma status_after_handleEvents e s :
  ch_status (channel (after (handleEvents e) s)) =
  match status_change e s with
  | Some next => next
  | None => ch_status (channel s)
  end.
Proof.
  unfold ChannelsNode.status_change.
  destruct (isLegacyHandshakeMessage helpers e) eqn:Hl.
  { unfold after. now rewrite (handleEvents_legacy e s Hl). }
  destruct (nullish (ev_data e)) eqn:Hn.
  { unfold after. now rewrite (handleEvents_nullish e s Hl Hn). }
  destruct (well_addressed e) eqn:Hw.
  2:{ unfold after. now rewrite (handleEvents_invalid e s Hl Hn Hw). }
  destruct (origin_rejected e s) eqn:Ho.
  { unfold after. now rewrite (handleEvents_foreign_origin e s Hl Hn Hw Ho). }
  unfold after. rewrite (handleEvents_routed e s Hl Hn Hw Ho).
  destruct (source_updated_frame e s) as (Hi & Hor & Hst & _ & _ & _ & _).
  set (s1 := source_updated e s) in *. rewrite Hi, Hor. cbn [negb orb].
  destruct (isHandshakeValue _ && truthy _).
  - destruct (strict_eq _ (JStr "handshake/syn")).
    + match goal with |- context [(?m ;;; ?k) ?x] => fold (after (m ;;; k) x) end.
      rewrite after_bind, setConnectionStatus_plain by discriminate. cbn [fst].
      rewrite after_bind. cbn [get_channel fst].
      match goal with |- context [after (send ?t ?d) ?x] =>
        destruct (send_frame t d x) as (_ & _ & _ & -> & _ & _) end.
      change (after get_channel ?x) with x.
      match goal with |- context [after (setConnectionStatus ?n) ?x] =>
        now destruct (setConnectionStatus_frame n x) as (_ & _ & _ & -> & _ & _) end.
    + destruct (strict_eq _ (JStr "handshake/ack")); [|exact Hst].
      cbn [andb]. unfold when. destruct (strict_eq _ (ch_id (channel s))); [|exact Hst].
      now destruct (setConnectionStatus_frame Connected s1) as (_ & _ & _ & H & _ & _).
  - destruct (strict_eq _ (ch_id (channel s)) && origin_is _ _); [|exact Hst].
    cbn [andb]. destruct (strict_eq _ (JStr "channel/disconnect")).
    + now destruct (setConnectionStatus_frame Disconnected s1) as (_ & _ & _ & H & _ & _).
    + match goal with |- context [(?m ;;; ?k) ?x] => fold (after (m ;;; k) x) end.
      rewrite after_bind.
      assert (E : forall x, fst (when (cfg_onEvent config) (emit x) s1) = Normal tt)
        by (intros x; unfold when; now destruct (cfg_onEvent config)).
      rewrite E.
      match goal with |- context [after (send ?t ?d) ?x] =>
        destruct (send_frame t d x) as (_ & _ & _ & -> & _ & _) end.
      unfold when. now destruct (cfg_onEvent config).
Qed.

(** C6, amended: given that the three handshake types are handshake
    types, (1) a valid 'handshake/syn' envelope with a truthy payload that
    passes the origin check makes the node adopt the session id carried in
    the payload (it mints none), pin the origin of the event, and take the
    status 'connecting', which it reports; when that id is truthy, the origin
    is not the empty string, a sink is known and the transport takes the
    envelope, a 'handshake/syn-ack' carrying that id goes to the sink;
    (2) a valid 'handshake/ack' whose payload echoes the session id held makes
    the status 'connected', reported before the buffer is flushed; (3) no
    event makes the status 'connected' except such an ack. *)
Theorem handshake_responder :
  isHandshakeMessage helpers "handshake/syn" = true ->
  isHandshakeMessage helpers "handshake/syn-ack" = true ->
  isHandshakeMessage helpers "handshake/ack" = true ->
  (forall e s,
      isLegacyHandshakeMessage helpers e = false ->
      isValidMessageEvent e s = (Normal true, s) ->
      origin_rejected e s = false ->
      field_of (ev_data e) "type" = JStr "handshake/syn" ->
      truthy (field_of (ev_data e) "data") = true ->
      let sid := field_of (field_of (ev_data e) "data") "id" in
      let reply := mkMsg sid (JObj [("id", sid)]) DOMAIN (cfg_id config) (next_uuid s)
                         (cfg_connectTo config) "handshake/syn-ack" in
      let s' := after (handleEvents e) s in
      ch_id (channel s') = sid /\
      ch_origin (channel s') = Some (ev_origin e) /\
      ch_status (channel s') = Connecting /\
      (forall sink,
          reply_sink e s = Some sink ->
          truthy sid = true ->
          ev_origin e <> "" ->
          postMessage sink reply (ev_origin e) = true ->
          trace s' = trace s ++ status_report Connecting
                             ++ [PostMessage sink reply (ev_origin e)]))
  /\
  (forall e s,
      isLegacyHandshakeMessage helpers e = false ->
      isValidMessageEvent e s = (Normal true, s) ->
      origin_rejected e s = false ->
      field_of (ev_data e) "type" = JStr "handshake/ack" ->
      truthy (field_of (ev_data e) "data") = true ->
      strict_eq (field_of (field_of (ev_data e) "data") "id") (ch_id (channel s)) = true ->
      let s' := after (handleEvents e) s in
      ch_status (channel s') = Connected /\
      ch_buffer (channel s') = [] /\
      exists tl, trace s' = trace s ++ status_report Connected ++ tl /\
                 posted tl `sublist_of` ch_buffer (channel s))
  /\
  (forall e s,
      ch_status (channel (after (handleEvents e) s)) = Connected ->
      ch_status (channel s) = Connected \/
      (field_of (ev_data e) "type" = JStr "handshake/ack" /\
       truthy (field_of (ev_data e) "data") = true /\
       strict_eq (field_of (field_of (ev_data e) "data") "id") (ch_id (channel s)) = true)).
Proof.
  intros Hsyn Hsynack Hack. split; [|split].
  - intros e s Hl Hv Ho Hty Hpay. cbv zeta.
    destruct (valid_event e s Hv) as [Hn Hw].
    unfold after. rewrite (handleEvents_routed e s Hl Hn Hw Ho).
    destruct (source_updated_frame e s) as (Hi & Hop & Hst & _ & Hu & _ & Htc).
    pose proof (source_updated_reply_sink e s) as Hsrc.
    set (s1 := source_updated e s) in *.
    rewrite Hty. cbn [ChannelsNode.isHandshakeValue]. rewrite Hsyn, Hpay.
    cbn [andb strict_eq]. rewrite String.eqb_refl.
    set (sid := field_of (field_of (ev_data e) "data") "id").
    set (X0 := with_channel (set_id sid) _).
    set (X := recorded (status_report Connecting) (with_channel (set_status Connecting) X0)).
    assert (E : (setConnectionStatus Connecting ;;;
                 ch' <- get_channel ;;
                 send "handshake/syn-ack" (JObj [("id", ch_id ch')])) X0
                = send "handshake/syn-ack" (JObj [("id", sid)]) X).
    { unfold bind at 1. rewrite setConnectionStatus_plain by discriminate.
      unfold bind at 1. reflexivity. }
    rewrite E. clear E.
    destruct (send_frame "handshake/syn-ack" (JObj [("id", sid)]) X) as (Fi & Fo & _ & Fs & _ & _).
    unfold after in Fi, Fo, Fs. rewrite Fi, Fo, Fs.
    repeat split.
    intros sink Hsink Htr Hne Hpost.
    rewrite (send_posts "handshake/syn-ack" _ X sink (ev_origin e)).
    + unfold X, X0. proj. rewrite Htc, <- app_assoc.
      unfold ChannelsNode.outgoing. proj. now rewrite Hu.
    + unfold ChannelsNode.buffers, ChannelsNode.isApplicationType. now rewrite Hsynack.
    + unfold X, X0. proj. now rewrite Hsrc.
    + reflexivity.
    + exact Htr.
    + exact Hne.
    + unfold ChannelsNode.outgoing, X, X0. proj. rewrite Hu. exact Hpost.
  - intros e s Hl Hv Ho Hty Hpay Hid. cbv zeta.
    destruct (valid_event e s Hv) as [Hn Hw].
    unfold after. rewrite (handleEvents_routed e s Hl Hn Hw Ho).
    destruct (source_updated_frame e s) as (Hi & Hop & Hst & Hb & Hu & _ & Htc).
    set (s1 := source_updated e s) in *.
    rewrite Hty. cbn [ChannelsNode.isHandshakeValue]. rewrite Hack, Hpay.
    cbn [andb strict_eq]. replace (String.eqb "handshake/ack" "handshake/syn") with false by reflexivity.
    rewrite String.eqb_refl, Hi, Hid. cbn [when].
    destruct (setConnectionStatus_connected s1) as (Hc & _ & tl & Ht & _ & Hsub).
    unfold after in Hc, Ht. rewrite Hc, Ht, Htc. proj. repeat split.
    exists tl. split; [reflexivity|]. now rewrite <- Hb.
  - intros e s Hfin.
    rewrite status_after_handleEvents in Hfin.
    unfold ChannelsNode.status_change in Hfin.
    destruct (_ || _ || _ || _) in Hfin; [now left|].
    destruct (isHandshakeValue _ && truthy _) eqn:Hh in Hfin.
    + destruct (strict_eq _ (JStr "handshake/syn")) in Hfin; [discriminate|].
      destruct (strict_eq _ (JStr "handshake/ack") && strict_eq _ _) eqn:Ha in Hfin;
        [|now left].
      right. apply andb_true_iff in Hh as [_ Hh]. apply andb_true_iff in Ha as [Ha Hecho].
      repeat split; try assumption.
      destruct (field_of (ev_data e) "type") as [| | | |t|]; try discriminate.
      cbn in Ha. apply String.eqb_eq in Ha. now subst t.
    + destruct (_ && _ && _) in Hfin; [discriminate | now left].
Qed.

(** C10: an inbound envelope of type 'channel/response' fails the
    validation of [isValidMessageEvent], whatever its session id and origin,
    and [handleEvents] returns without a change to the channel record,
    without a call of the application handler and without a reply: the
    trace gains nothing, or only the console warning when the event also
    passes for a legacy handshake. *)
Theorem response_envelope_ignored e s :
  field_of (ev_data e) "type" = JStr "channel/response" ->
  isValidMessageEvent e s = (Normal false, s) /\
  fst (handleEvents e s) = Normal tt /\
  (after (handleEvents e) s = s \/ after (handleEvents e) s = recorded [ConsoleError] s).
Proof.
  intros Hty.
  assert (Hn : nullish (ev_data e) = false) by (destruct (ev_data e); cbn in *; congruence).
  assert (Hv : isValidMessageEvent e s = (Normal false, s)).
  { rewrite (isValidMessageEvent_defined e s Hn). unfold ChannelsNode.well_addressed.
    rewrite Hty. cbn. now rewrite !andb_false_r. }
  split; [exact Hv|].
  unfold ChannelsNode.handleEvents, after.
  destruct (isLegacyHandshakeMessage helpers e).
  - split; [reflexivity | right; reflexivity].
  - unfold bind. rewrite Hv. split; [reflexivity | left; reflexivity].
Qed.



(** ** Submission order *)

Lemma application_payloads_app l1 l2 :
  application_payloads (l1 ++ l2) = application_payloads l1 ++ application_payloads l2.
Proof. apply List.filter_app. Qed.

Lemma wire_recorded tl s :
  wire (recorded tl s) = wire s ++ application_payloads (posted tl).
Proof.
  unfold ChannelsNode.wire, recorded, posted. cbn [trace].
  now rewrite omap_app, application_payloads_app.
Qed.

Lemma wire_trace s s' : trace s' = trace s -> wire s' = wire s.
Proof. unfold ChannelsNode.wire. now intros ->. Qed.

Lemma wire_extended s s' tl :
  trace s' = trace s ++ tl -> wire s' = wire s ++ application_payloads (posted tl).
Proof.
  unfold ChannelsNode.wire, posted. intros ->.
  now rewrite omap_app, application_payloads_app.
Qed.

Lemma all_application_sublist l k :
  l `sublist_of` k -> all_application k = true -> application_payloads l = l.
Proof.
  unfold ChannelsNode.all_application, ChannelsNode.application_payloads.
  induction 1 as [|x l k _ IH|x l k _ IH]; cbn; intros Hk.
  - reflexivity.
  - apply andb_true_iff in Hk as [Hx Hk]. rewrite Hx. f_equal. now apply IH.
  - apply andb_true_iff in Hk as [_ Hk]. now apply IH.
Qed.

(** A [send] of a type that is no application type adds no application
    payload to the wire and leaves the channel record alone. *)
Lemma send_protocol_wire type data s :
  isApplicationType type = false ->
  channel (after (send type data) s) = channel s /\
  wire (after (send type data) s) = wire s.
Proof.
  intros Hna.
  assert (Hb : buffers type s = false) by (unfold ChannelsNode.buffers; now rewrite Hna).
  destruct (send_passing_frame type data s Hb) as (Hc & _ & tl & Ht & _ & Hp).
  split; [exact Hc|]. rewrite (wire_extended _ _ _ Ht).
  destruct Hp as [-> | [-> _]]; cbn.
  - apply app_nil_r.
  - unfold ChannelsNode.application_payloads. cbn. rewrite Hna. apply app_nil_r.
Qed.

(** The buffer and the wire after [handleEvents]: either the event makes
    the status 'connected', the buffer is emptied and entries of it reach
    the sink in buffer order, or the buffer and the wire are as before. *)
Lemma handleEvents_wire e s :
  isApplicationType "handshake/syn-ack" = false ->
  isApplicationType "channel/response" = false ->
  let s' := after (handleEvents e) s in
  (status_change e s = Some Connected /\
   ch_buffer (channel s') = [] /\
   exists l, posted (trace s') = posted (trace s) ++ l /\
             l `sublist_of` ch_buffer (channel s))
  \/ (status_change e s <> Some Connected /\
      ch_buffer (channel s') = ch_buffer (channel s) /\
      wire s' = wire s).
Proof.
  intros Hsa Hre. cbv zeta. unfold ChannelsNode.status_change.
  destruct (isLegacyHandshakeMessage helpers e) eqn:Hl.
  { right. unfold after. rewrite (handleEvents_legacy e s Hl). proj.
    repeat split; [discriminate|]. rewrite wire_recorded. apply app_nil_r. }
  destruct (nullish (ev_data e)) eqn:Hn.
  { right. unfold after. rewrite (handleEvents_nullish e s Hl Hn).
    repeat split. discriminate. }
  destruct (well_addressed e) eqn:Hw.
  2:{ right. unfold after. rewrite (handleEvents_invalid e s Hl Hn Hw).
      repeat split. discriminate. }
  destruct (origin_rejected e s) eqn:Ho.
  { right. unfold after. rewrite (handleEvents_foreign_origin e s Hl Hn Hw Ho).
    repeat split. discriminate. }
  unfold after. rewrite (handleEvents_routed e s Hl Hn Hw Ho).
  destruct (source_updated_frame e s) as (Hi & Hor & Hst & Hb & _ & _ & Ht).
  set (s1 := source_updated e s) in *. rewrite Hi, Hor. cbn [negb orb].
  assert (Hw1 : wire s1 = wire s) by now apply wire_trace.
  destruct (isHandshakeValue _ && truthy _).
  - destruct (strict_eq _ (JStr "handshake/syn")).
    + right. split; [discriminate|].
      match goal with |- context [(?m ;;; ?k) ?x] => fold (after (m ;;; k) x) end.
      rewrite after_bind, setConnectionStatus_plain by discriminate. cbn [fst].
      rewrite after_bind. cbn [get_channel fst].
      match goal with |- context [after (send ?t ?d) ?x] =>
        destruct (send_protocol_wire t d x Hsa) as (-> & ->) end.
      change (after get_channel ?x) with x.
      unfold after. rewrite setConnectionStatus_plain by discriminate. proj.
      split; [exact Hb|].
      rewrite wire_recorded, posted_status_report. cbn. rewrite app_nil_r.
      now apply wire_trace.
    + destruct (strict_eq _ (JStr "handshake/ack")); cbn [andb];
        [|right; repeat split; [discriminate | exact Hb | exact Hw1]].
      unfold when. destruct (strict_eq _ (ch_id (channel s)));
        [|right; repeat split; [discriminate | exact Hb | exact Hw1]].
      left. split; [reflexivity|].
      destruct (setConnectionStatus_connected s1) as (Hc & _ & tl & Htl & _ & Hsub).
      unfold after in Hc, Htl. rewrite Hc, Htl. proj. split; [reflexivity|].
      exists (posted tl). rewrite Ht. unfold posted at 1. rewrite !omap_app.
      fold (posted (status_report Connected)). rewrite posted_status_report.
      split; [reflexivity | now rewrite <- Hb].
  - right.
    destruct (strict_eq _ (ch_id (channel s)) && origin_is _ _); cbn [andb];
      [|repeat split; [discriminate | exact Hb | exact Hw1]].
    destruct (strict_eq _ (JStr "channel/disconnect")).
    + split; [discriminate|]. rewrite setConnectionStatus_plain by discriminate. proj.
      split; [exact Hb|]. rewrite wire_recorded, posted_status_report. cbn.
      now rewrite app_nil_r.
    + split; [discriminate|].
      match goal with |- context [(?m ;;; ?k) ?x] => fold (after (m ;;; k) x) end.
      rewrite after_bind.
      assert (E : forall x, fst (when (cfg_onEvent config) (emit x) s1) = Normal tt)
        by (intros x; unfold when; now destruct (cfg_onEvent config)).
      rewrite E.
      match goal with |- context [after (send ?t ?d) ?x] =>
        destruct (send_protocol_wire t d x Hre) as (-> & ->) end.
      unfold when. destruct (cfg_onEvent config); unfold emit, ret; proj.
      * split; [exact Hb|]. rewrite wire_recorded. cbn. now rewrite app_nil_r.
      * split; [exact Hb | exact Hw1].
Qed.

(** With identifier, origin and sink set and a transport that takes every
    envelope for that sink and origin, a flush in a passing status hands
    over the whole list, in its order. *)
Lemma forEach_send_reliable xs : forall s sink target,
  passing s = true ->
  ch_source (channel s) = Some sink ->
  ch_origin (channel s) = Some target ->
  truthy (ch_id (channel s)) = true ->
  target <> "" ->
  (forall msg, postMessage sink msg target = true) ->
  let s' := after (forEach (fun '(type, data) => send type data) xs) s in
  channel s' = channel s /\ posted (trace s') = posted (trace s) ++ xs.
Proof.
  induction xs as [|[type data] xs IH]; intros s sink target Hp Hs Ho Ht Hne Hall.
  - cbn. now rewrite app_nil_r.
  - cbn [forEach]. cbv zeta. rewrite after_bind.
    change (after (send type data) s) with (snd (send type data s)).
    rewrite (send_posts type data s sink target (passing_not_buffers type s Hp)
               Hs Ho Ht Hne (Hall _)).
    cbn [fst snd].
    set (s1 := recorded _ (uuid_taken s)).
    destruct (IH s1 sink target) as (Hc & Hposted); try assumption.
    rewrite Hc, Hposted. split; [reflexivity|].
    unfold s1, posted. proj. rewrite omap_app, <- app_assoc. reflexivity.
Qed.

Lemma submitted_one op :
  application_payloads (ChannelsNode.submitted [op]) =
  match op with
  | CallSend type data => if isApplicationType type then [(type, data)] else []
  | _ => []
  end.
Proof. now destruct op. Qed.

(** One operation keeps the order invariant, the submissions growing by
    the application payload the operation submits, if any. *)
Lemma step_order_invariant op s sub :
  isApplicationType "handshake/syn-ack" = false ->
  isApplicationType "channel/response" = false ->
  order_invariant s sub ->
  sends_while_live [op] s = true ->
  order_invariant (step op s) (sub ++ application_payloads (ChannelsNode.submitted [op])).
Proof.
  intros Hsa Hre (Hconn & Hun & Hall & Hsub) Hlive.
  rewrite submitted_one.
  destruct op as [type data | e |]; cbn [ChannelsNode.step].
  - (* send *)
    cbn in Hlive. rewrite andb_true_r in Hlive. apply negb_true_iff in Hlive.
    unfold ChannelsNode.sendPublic.
    destruct (buffers type s) eqn:Hb.
    + unfold after. rewrite (send_buffering type data s Hb). proj.
      unfold ChannelsNode.buffers in Hb. apply andb_true_iff in Hb as [Happ Hst].
      unfold ChannelsNode.order_invariant. proj. repeat split.
      * intros Hc. rewrite Hc in Hst. discriminate.
      * exact Hun.
      * unfold ChannelsNode.all_application in *. rewrite forallb_app, Hall. cbn.
        now rewrite Happ.
      * rewrite Happ.
        change (ChannelsNode.wire helpers (with_channel ?f s)) with (wire s).
        rewrite app_assoc. now apply sublist_app.
    + destruct (send_passing_frame type data s Hb) as (Hc & _ & tl & Ht & _ & Hp).
      unfold ChannelsNode.order_invariant. rewrite Hc.
      repeat split; try assumption.
      rewrite (wire_extended _ _ _ Ht).
      destruct (isApplicationType type) eqn:Happ.
      * (* an application payload passes: the status is 'connected' *)
        unfold ChannelsNode.buffers in Hb. rewrite Happ in Hb. cbn in Hb.
        assert (Hc' : ch_status (channel s) = Connected)
          by (destruct (ch_status (channel s)); cbn in *; congruence).
        rewrite (Hconn Hc') in *. rewrite app_nil_r in *.
        apply sublist_app; [exact Hsub|].
        destruct Hp as [-> | [-> _]]; cbn; [apply sublist_nil_l|].
        rewrite Happ. reflexivity.
      * assert (E : application_payloads (posted tl) = []).
        { destruct Hp as [-> | [-> _]]; cbn; [reflexivity | now rewrite Happ]. }
        now rewrite E, !app_nil_r.
  - (* a message event *)
    rewrite app_nil_r.
    destruct (listening s); [|repeat split; assumption].
    pose proof (status_after_handleEvents e s) as Hst.
    destruct (handleEvents_wire e s Hsa Hre) as [(Hch & Hb & l & Hl & Hls) | (Hch & Hb & Hw)].
    + rewrite Hch in Hst. unfold ChannelsNode.order_invariant. rewrite Hb, Hst.
      repeat split; try discriminate.
      rewrite app_nil_r. unfold ChannelsNode.wire. rewrite Hl, application_payloads_app.
      rewrite (all_application_sublist l _ Hls Hall).
      etransitivity; [|exact Hsub]. apply sublist_app; [reflexivity | exact Hls].
    + unfold ChannelsNode.order_invariant. rewrite Hb, Hw. repeat split; try assumption.
      * intros Hc. rewrite Hc in Hst. apply Hconn.
        destruct (status_change e s) as [next|]; [|now symmetry].
        subst next. congruence.
      * intros Hu. rewrite Hu in Hst.
        destruct (status_change e s) as [next|] eqn:E; [|now symmetry in Hst].
        subst next. unfold ChannelsNode.status_change in E.
        repeat match type of E with
               | (if ?b then _ else _) = _ => destruct b; try discriminate
               end.
  - (* destroy *)
    rewrite app_nil_r. unfold ChannelsNode.destroy. rewrite after_bind.
    assert (Hd : fst (disconnect s) = Normal tt /\
                 ch_buffer (channel (after disconnect s)) = ch_buffer (channel s) /\
                 wire (after disconnect s) = wire s /\
                 (ch_status (channel (after disconnect s)) = Disconnected)).
    { destruct (status_eqb (ch_status (channel s)) Disconnected) eqn:Hd.
      - assert (Hs : ch_status (channel s) = Disconnected)
          by (destruct (ch_status (channel s)); cbn in Hd; congruence).
        unfold ChannelsNode.disconnect, after, bind. cbn [get_channel]. rewrite Hd.
        now repeat split.
      - assert (Hs : ch_status (channel s) <> Disconnected)
          by (intros H; rewrite H in Hd; discriminate).
        unfold after. rewrite (disconnect_live s Hs). proj. repeat split.
        rewrite wire_recorded, posted_status_report. cbn. now rewrite app_nil_r. }
    destruct Hd as (-> & Hb & Hw & Hs).
    unfold ChannelsNode.order_invariant.
    change (channel (after (set_listening false) ?x)) with (channel x).
    change (ChannelsNode.wire helpers (after (set_listening false) ?x)) with (wire x).
    rewrite Hb, Hw, Hs. repeat split; try assumption; discriminate.
Qed.

Lemma run_order_invariant ops : forall s sub,
  isApplicationType "handshake/syn-ack" = false ->
  isApplicationType "channel/response" = false ->
  order_invariant s sub ->
  sends_while_live ops s = true ->
  order_invariant (run ops s) (sub ++ application_payloads (submitted ops)).
Proof.
  induction ops as [|op ops IH]; intros s sub Hsa Hre Hinv Hlive.
  - cbn. now rewrite app_nil_r.
  - cbn [ChannelsNode.sends_while_live] in Hlive. apply andb_true_iff in Hlive as [H1 H2].
    assert (Hone : sends_while_live [op] s = true)
      by (cbn [ChannelsNode.sends_while_live]; now rewrite H1).
    pose proof (step_order_invariant op s sub Hsa Hre Hinv Hone) as Hstep.
    specialize (IH _ _ Hsa Hre Hstep H2).
    change (run (op :: ops) s) with (run ops (step op s)).
    assert (E : submitted (op :: ops) = submitted [op] ++ submitted ops)
      by (unfold ChannelsNode.submitted; apply (omap_app _ [op] ops)).
    now rewrite E, application_payloads_app, app_assoc.
Qed.

Lemma createChannelsNode_state :
  createChannelsNode =
  mkNode (mkChannel [] JNull None None Connecting) 0 true (status_report Connecting).
Proof.
  unfold ChannelsNode.createChannelsNode, ChannelsNode.initialise, ChannelsNode.fresh, bind.
  cbn [set_listening]. rewrite setConnectionStatus_plain by discriminate. reflexivity.
Qed.

Lemma createChannelsNode_order_invariant : order_invariant createChannelsNode [].
Proof.
  rewrite createChannelsNode_state. unfold ChannelsNode.order_invariant. proj.
  repeat split; try discriminate.
  unfold ChannelsNode.wire. proj. now rewrite posted_status_report.
Qed.

(** C1, amended: given that 'handshake/syn-ack' is a handshake type and
    'channel/response' an internal one, (1) over any sequence of public
    [send] calls, delivered message events and [destroy] calls on a new node
    in which no [send] is called while the status is 'disconnected', the
    application payloads handed to the peer sink, followed by those still in
    the buffer, are the submitted application payloads in submission order
    with entries left out (those dropped for want of an identifier, origin or
    sink, or lost to a failing transport); (2) on entering 'connected' with
    identifier, origin and sink set and a transport that takes every envelope,
    the buffer is emptied and its entries reach the sink in insertion order,
    all of them, before the operation returns. *)
Theorem submission_order_kept :
  isHandshakeMessage helpers "handshake/syn-ack" = true ->
  isInternalMessage helpers "channel/response" = true ->
  (forall ops,
      sends_while_live ops createChannelsNode = true ->
      wire (run ops createChannelsNode) ++ ch_buffer (channel (run ops createChannelsNode))
        `sublist_of` application_payloads (submitted ops))
  /\
  (forall s sink target,
      ch_source (channel s) = Some sink ->
      ch_origin (channel s) = Some target ->
      truthy (ch_id (channel s)) = true ->
      target <> "" ->
      (forall msg, postMessage sink msg target = true) ->
      let s' := after (setConnectionStatus Connected) s in
      ch_status (channel s') = Connected /\
      ch_buffer (channel s') = [] /\
      posted (trace s') = posted (trace s) ++ ch_buffer (channel s)).
Proof.
  intros Hsynack Hresp.
  assert (Hsa : isApplicationType "handshake/syn-ack" = false)
    by (unfold ChannelsNode.isApplicationType; now rewrite Hsynack).
  assert (Hre : isApplicationType "channel/response" = false)
    by (unfold ChannelsNode.isApplicationType; rewrite Hresp; apply andb_false_r).
  split.
  - intros ops Hlive.
    now destruct (run_order_invariant ops _ [] Hsa Hre createChannelsNode_order_invariant Hlive)
      as (_ & _ & _ & H).
  - intros s sink target Hs Ho Ht Hne Hall. cbv zeta.
    unfold ChannelsNode.setConnectionStatus.
    rewrite !after_bind. cbn [modify_channel fst when status_eqb].
    set (s1 := after (modify_channel (set_status Connected)) s).
    assert (E1 : fst (when (cfg_onStatusUpdate config) (emit (OnStatusUpdate Connected)) s1)
                 = Normal tt) by (destruct (cfg_onStatusUpdate config); reflexivity).
    rewrite E1.
    set (s2 := after (when (cfg_onStatusUpdate config) (emit (OnStatusUpdate Connected))) s1).
    assert (E2 : s2 = recorded (status_report Connected) s1).
    { unfold s2, ChannelsNode.status_report, after, when, emit, ret, recorded.
      destruct (cfg_onStatusUpdate config); cbn; [reflexivity|].
      rewrite app_nil_r. now destruct s1. }
    unfold ChannelsNode.flush. rewrite !after_bind. cbn [get_channel modify_channel fst].
    change (after get_channel s2) with s2.
    rewrite after_bind. cbn [modify_channel fst].
    change (after (modify_channel (set_buffer [])) s2) with (with_channel (set_buffer []) s2).
    set (s3 := with_channel (set_buffer []) s2).
    destruct (forEach_send_reliable (ch_buffer (channel s2)) s3 sink target) as (Hc & Hp);
      try assumption; try (unfold s3; rewrite E2; proj; assumption).
    { unfold s3. now rewrite E2. }
    rewrite Hc, Hp. unfold s3. rewrite E2. unfold s1. proj. repeat split.
    unfold posted at 1. rewrite omap_app. fold (posted (status_report Connected)).
    now rewrite posted_status_report, app_nil_r.
Qed.

(** ** Further properties of the node *)

Local Abbreviation status_reports := ChannelsNode.status_reports.
Local Abbreviation envelope_ok := (ChannelsNode.envelope_ok config).
Local Abbreviation trace_extends := ChannelsNode.trace_extends.
Local Abbreviation sent := (ChannelsNode.sent config).
Local Abbreviation emitted := (ChannelsNode.emitted config).
Local Abbreviation buffer_disciplined := (ChannelsNode.buffer_disciplined helpers).
Local Abbreviation always_connecting :=
  (ChannelsNode.always_connecting config helpers postMessage).

(** Whatever holds of each way [handleEvents] can end holds of
    [handleEvents]: the console warning, the TypeError, the state untouched,
    the state with the sink updated, the reply to a handshake-open, the
    transition to 'connected', the transition to 'disconnected', and the
    response after the handler call. *)
Lemma handleEvents_cases e s (Q : Completion unit * NodeState -> Prop) :
  Q (Normal tt, recorded [ConsoleError] s) ->
  (nullish (ev_data e) = true -> Q (Thrown TypeError, s)) ->
  Q (Normal tt, s) ->
  (nullish (ev_data e) = false ->
   let s1 := source_updated e s in
   let sid := field_of (field_of (ev_data e) "data") "id" in
   Q (Normal tt, s1) /\
   Q (send "handshake/syn-ack" (JObj [("id", sid)])
        (recorded (status_report Connecting)
           (with_channel (set_status Connecting)
              (with_channel (set_id sid)
                 (with_channel (set_origin (Some (ev_origin e))) s1))))) /\
   Q (setConnectionStatus Connected s1) /\
   Q (Normal tt, recorded (status_report Disconnected)
                          (with_channel (set_status Disconnected) s1)) /\
   Q (send "channel/response" (JObj [("responseTo", field_of (ev_data e) "id")])
        (if cfg_onEvent config
         then recorded [OnEvent (field_of (ev_data e) "type") (field_of (ev_data e) "data")] s1
         else s1))) ->
  Q (handleEvents e s).
Proof.
  intros Hlegacy Hthrow Hsame Hrouted.
  destruct (isLegacyHandshakeMessage helpers e) eqn:Hl.
  { now rewrite (handleEvents_legacy e s Hl). }
  destruct (nullish (ev_data e)) eqn:Hn.
  { rewrite (handleEvents_nullish e s Hl Hn). now apply Hthrow. }
  destruct (well_addressed e) eqn:Hw.
  2:{ now rewrite (handleEvents_invalid e s Hl Hn Hw). }
  destruct (origin_rejected e s) eqn:Ho.
  { now rewrite (handleEvents_foreign_origin e s Hl Hn Hw Ho). }
  rewrite (handleEvents_routed e s Hl Hn Hw Ho).
  destruct (Hrouted eq_refl) as (Q1 & Qsyn & Qack & Qdis & Qapp). clear Hrouted.
  set (s1 := source_updated e s) in *.
  destruct (isHandshakeValue _ && truthy _).
  - destruct (strict_eq _ (JStr "handshake/syn")).
    + unfold bind at 1. rewrite setConnectionStatus_plain by discriminate.
      unfold bind at 1. exact Qsyn.
    + destruct (strict_eq _ (JStr "handshake/ack")); [|exact Q1].
      unfold when. now destruct (strict_eq _ (ch_id (channel s1))).
  - destruct (strict_eq _ (ch_id (channel s1)) && origin_is _ _); [|exact Q1].
    destruct (strict_eq _ (JStr "channel/disconnect")).
    + now rewrite setConnectionStatus_plain by discriminate.
    + unfold bind at 1, when. now destruct (cfg_onEvent config).
Qed.

(** X1: teardown is idempotent.  After [disconnect()] a second
    [disconnect()] returns with the state as it is, so the status callback
    hears 'disconnected' once; likewise a second [destroy()]. *)
Theorem teardown_idempotent s :
  disconnect (after disconnect s) = (Normal tt, after disconnect s) /\
  destroy (after destroy s) = (Normal tt, after destroy s).
Proof.
  assert (Hd : forall x, ch_status (channel (after disconnect x)) = Disconnected).
  { intros x. destruct (status_eqb (ch_status (channel x)) Disconnected) eqn:E.
    - assert (Hx : ch_status (channel x) = Disconnected)
        by (destruct (ch_status (channel x)); cbn in E; congruence).
      unfold after, ChannelsNode.disconnect, bind. cbn [get_channel]. now rewrite E.
    - unfold after. rewrite disconnect_live; [reflexivity|].
      intros H. rewrite H in E. discriminate. }
  assert (Hre : forall x, ch_status (channel x) = Disconnected ->
                          disconnect x = (Normal tt, x)).
  { intros x Hx. unfold ChannelsNode.disconnect, bind. cbn [get_channel]. now rewrite Hx. }
  split; [apply Hre, Hd|].
  assert (Hfst : forall x, fst (disconnect x) = Normal tt).
  { intros x. destruct (status_eqb (ch_status (channel x)) Disconnected) eqn:E.
    - rewrite Hre; [reflexivity|]. destruct (ch_status (channel x)); cbn in E; congruence.
    - rewrite disconnect_live; [reflexivity|]. intros H. rewrite H in E. discriminate. }
  assert (Hdes : forall x, destroy x =
            (Normal tt, mkNode (channel (after disconnect x)) (next_uuid (after disconnect x))
                               false (trace (after disconnect x)))).
  { intros x. unfold ChannelsNode.destroy, bind. specialize (Hfst x). unfold after.
    destruct (disconnect x) as [[[]|err] x']; cbn in Hfst; [reflexivity | discriminate]. }
  assert (E : after destroy s =
                mkNode (channel (after disconnect s)) (next_uuid (after disconnect s))
                       false (trace (after disconnect s)))
    by (unfold after at 1; now rewrite Hdes).
  rewrite E. set (d := mkNode _ _ false _).
  assert (Hdd : after disconnect d = d)
    by (unfold after; rewrite (Hre d); [reflexivity | apply Hd]).
  now rewrite (Hdes d), Hdd.
Qed.

(** X2: an event whose envelope is not for this node, by its domain tag,
    its addressee or its sender, changes nothing: the state after
    [handleEvents] is the state before, or that state with the console
    warning when the event passes for a legacy handshake. *)
Theorem misaddressed_event_dropped e s :
  strict_eq (field_of (ev_data e) "domain") (JStr DOMAIN) = false \/
  strict_eq (field_of (ev_data e) "to") (JStr (cfg_id config)) = false \/
  strict_eq (field_of (ev_data e) "from") (JStr (cfg_connectTo config)) = false ->
  after (handleEvents e) s = s \/ after (handleEvents e) s = recorded [ConsoleError] s.
Proof.
  intros H.
  assert (Hw : well_addressed e = false).
  { unfold ChannelsNode.well_addressed.
    destruct H as [-> | [-> | ->]]; now rewrite ?andb_false_r. }
  unfold after.
  destruct (isLegacyHandshakeMessage helpers e) eqn:Hl.
  { rewrite (handleEvents_legacy e s Hl). now right. }
  left. destruct (nullish (ev_data e)) eqn:Hn.
  - now rewrite (handleEvents_nullish e s Hl Hn).
  - now rewrite (handleEvents_invalid e s Hl Hn Hw).
Qed.

(** X4: when [send] does not buffer and the session id is falsy, or no
    non-empty origin is pinned, or no sink is known, the message is dropped:
    [send] returns normally and the state is as before. *)
Theorem send_without_session_drops type data s :
  buffers type s = false ->
  truthy (ch_id (channel s)) = false \/
  origin_truthy (ch_origin (channel s)) = false \/
  ch_source (channel s) = None ->
  send type data s = (Normal tt, s).
Proof.
  intros Hb H.
  unfold ChannelsNode.buffers, ChannelsNode.isApplicationType in Hb.
  unfold ChannelsNode.send, bind. cbn [get_channel]. rewrite Hb.
  destruct (ch_origin (channel s)) as [target|]; [|reflexivity].
  destruct (ch_source (channel s)) as [sink|]; [|reflexivity].
  destruct H as [-> | [H | H]]; [reflexivity | | discriminate].
  cbn in H. rewrite H. now rewrite andb_false_r.
Qed.

(** *** What is added to the trace *)

Lemma trace_extends_refl P s : trace_extends P s s.
Proof. exists []. split; [now rewrite app_nil_r | constructor]. Qed.

Lemma trace_extends_same P s s' : trace s' = trace s -> trace_extends P s s'.
Proof. intros H. exists []. split; [now rewrite app_nil_r | constructor]. Qed.

Lemma trace_extends_trans P s1 s2 s3 :
  trace_extends P s1 s2 -> trace_extends P s2 s3 -> trace_extends P s1 s3.
Proof.
  intros (t1 & E1 & F1) (t2 & E2 & F2). exists (t1 ++ t2). split.
  - now rewrite E2, E1, app_assoc.
  - apply Forall_app. now split.
Qed.

Lemma trace_extends_impl (P Q : Effect -> Prop) s s' :
  (forall ev, P ev -> Q ev) -> trace_extends P s s' -> trace_extends Q s s'.
Proof.
  intros H (tl & E & F). exists tl. split; [exact E|].
  eapply Forall_impl; eauto.
Qed.

Lemma trace_extends_recorded P evs s s' :
  Forall P evs -> trace s' = trace s -> trace_extends P s (recorded evs s').
Proof. intros F E. exists evs. split; [cbn; now rewrite E | exact F]. Qed.

Lemma sent_emitted ev : sent ev -> emitted ev.
Proof. now intros [_ H]. Qed.

Lemma status_report_emitted next : Forall emitted (status_report next).
Proof.
  unfold ChannelsNode.status_report. destruct (cfg_onStatusUpdate config); repeat constructor.
Qed.

(** [send] adds nothing to the trace, or one call of [postMessage] with a
    well-formed envelope. *)
Lemma send_sent type data s : trace_extends sent s (after (send type data) s).
Proof.
  destruct (buffers type s) eqn:Hb.
  - unfold after. rewrite (send_buffering type data s Hb). now apply trace_extends_same.
  - unfold after.
    destruct (send_passing type data s Hb)
      as [E | (sink & target & Hs & Ho & Ht & Hne & [[_ E] | [_ E]])]; rewrite E; cbn [snd].
    + apply trace_extends_refl.
    + apply trace_extends_recorded; [|reflexivity].
      apply Forall_singleton. split; [reflexivity|].
      unfold ChannelsNode.envelope_ok, ChannelsNode.outgoing. cbn.
      apply String.eqb_neq in Hne. now rewrite !String.eqb_refl, Ht, Hne.
    + now apply trace_extends_same.
Qed.

Lemma forEach_send_sent xs : forall s,
  trace_extends sent s (after (forEach (fun '(type, data) => send type data) xs) s).
Proof.
  induction xs as [|[type data] xs IH]; intros s.
  - apply trace_extends_refl.
  - cbn [forEach]. rewrite after_bind.
    pose proof (send_sent type data s) as H1.
    destruct (fst (send type data s)) as [[]|err]; [|exact H1].
    eapply trace_extends_trans; [exact H1 | apply IH].
Qed.

(** [setConnectionStatus('connected')] is the flush of the buffer, started
    with the status set, the report made and the buffer emptied. *)
Lemma setConnectionStatus_connected_flush s :
  setConnectionStatus Connected s =
  forEach (fun '(type, data) => send type data) (ch_buffer (channel s))
    (with_channel (set_buffer [])
       (recorded (status_report Connected) (with_channel (set_status Connected) s))).
Proof.
  unfold ChannelsNode.setConnectionStatus.
  unfold bind at 1. cbn [modify_channel].
  unfold bind at 1.
  assert (E : when (cfg_onStatusUpdate config) (emit (OnStatusUpdate Connected))
                (with_channel (set_status Connected) s)
              = (Normal tt, recorded (status_report Connected)
                                     (with_channel (set_status Connected) s))).
  { unfold ChannelsNode.status_report, when, emit, ret, recorded.
    destruct (cfg_onStatusUpdate config); cbn; [reflexivity|].
    now rewrite app_nil_r. }
  rewrite E. cbn [when status_eqb]. unfold ChannelsNode.flush.
  unfold bind at 1. cbn [get_channel]. unfold bind at 1. cbn [modify_channel].
  reflexivity.
Qed.

Lemma setConnectionStatus_emitted next s :
  trace_extends emitted s (after (setConnectionStatus next) s).
Proof.
  destruct (status_eqb next Connected) eqn:E.
  - assert (next = Connected) as -> by (destruct next; cbn in E; congruence).
    unfold after. rewrite setConnectionStatus_connected_flush.
    eapply trace_extends_trans.
    2:{ eapply trace_extends_impl; [apply sent_emitted | apply forEach_send_sent]. }
    apply (trace_extends_recorded _ _ s); [apply status_report_emitted | reflexivity].
  - unfold after. rewrite setConnectionStatus_plain by (intros ->; discriminate).
    apply trace_extends_recorded; [apply status_report_emitted | reflexivity].
Qed.

Lemma handleEvents_emitted e s : trace_extends emitted s (after (handleEvents e) s).
Proof.
  unfold after.
  apply (handleEvents_cases e s (fun r => trace_extends emitted s (snd r))); cbn [snd].
  - apply trace_extends_recorded; [repeat constructor | reflexivity].
  - intros _. apply trace_extends_refl.
  - apply trace_extends_refl.
  - intros _. cbv zeta.
    destruct (source_updated_frame e s) as (_ & _ & _ & _ & _ & _ & Ht).
    repeat split.
    + now apply trace_extends_same.
    + eapply trace_extends_trans;
        [| eapply trace_extends_impl; [apply sent_emitted | apply send_sent] ].
      apply trace_extends_recorded; [apply status_report_emitted | exact Ht].
    + eapply trace_extends_trans; [| apply setConnectionStatus_emitted].
      now apply trace_extends_same.
    + apply trace_extends_recorded; [apply status_report_emitted | exact Ht].
    + eapply trace_extends_trans;
        [| eapply trace_extends_impl; [apply sent_emitted | apply send_sent] ].
      destruct (cfg_onEvent config).
      * apply trace_extends_recorded; [repeat constructor | exact Ht].
      * now apply trace_extends_same.
Qed.

Lemma destroy_emitted s : trace_extends emitted s (after destroy s).
Proof.
  unfold ChannelsNode.destroy. rewrite after_bind.
  assert (H : trace_extends emitted s (after disconnect s)).
  { unfold after, ChannelsNode.disconnect, bind. cbn [get_channel].
    destruct (status_eqb (ch_status (channel s)) Disconnected).
    - apply trace_extends_refl.
    - apply setConnectionStatus_emitted. }
  destruct (fst (disconnect s)) as [[]|err]; [|exact H].
  eapply trace_extends_trans; [exact H|]. now apply trace_extends_same.
Qed.

Lemma step_emitted op s : trace_extends emitted s (step op s).
Proof.
  destruct op as [type data | e |]; cbn [ChannelsNode.step].
  - eapply trace_extends_impl; [apply sent_emitted | apply send_sent].
  - destruct (listening s); [apply handleEvents_emitted | apply trace_extends_refl].
  - apply destroy_emitted.
Qed.

Lemma run_emitted ops : forall s, trace_extends emitted s (run ops s).
Proof.
  induction ops as [|op ops IH]; intros s.
  - apply trace_extends_refl.
  - change (run (op :: ops) s) with (run ops (step op s)).
    eapply trace_extends_trans; [apply step_emitted | apply IH].
Qed.

(** X5: every envelope a node ever hands to [postMessage], over any
    sequence of [send] calls, delivered events and [destroy] calls, bears the
    domain tag, the identifiers of the configuration as sender and addressee
    and a truthy session id, and goes to a target origin that is not the
    empty string. *)
Theorem posted_envelopes_well_formed ops sink msg target :
  In (PostMessage sink msg target) (trace (run ops createChannelsNode)) ->
  msg_domain msg = DOMAIN /\
  msg_from msg = cfg_id config /\
  msg_to msg = cfg_connectTo config /\
  truthy (msg_connectionId msg) = true /\
  target <> "".
Proof.
  intros Hin.
  destruct (run_emitted ops createChannelsNode) as (tl & E & F).
  rewrite E, createChannelsNode_state in Hin. cbn [trace] in Hin.
  apply in_app_or in Hin as [Hin | Hin].
  - exfalso. unfold ChannelsNode.status_report in Hin.
    destruct (cfg_onStatusUpdate config); cbn in Hin; [|easy].
    destruct Hin as [Hin | []]. discriminate.
  - apply list_elem_of_In in Hin.
    rewrite Forall_forall in F. specialize (F _ Hin).
    unfold ChannelsNode.emitted, ChannelsNode.envelope_ok in F.
    repeat (apply andb_true_iff in F as [F ?]).
    repeat split; try (now apply String.eqb_eq); try assumption.
    now apply String.eqb_neq, negb_true_iff.
Qed.

(** *** The buffer *)

Lemma send_disciplined type data s :
  buffer_disciplined (channel s) -> buffer_disciplined (channel (after (send type data) s)).
Proof.
  intros [Hall Hconn]. destruct (buffers type s) eqn:Hb.
  - unfold after. rewrite (send_buffering type data s Hb). proj.
    unfold ChannelsNode.buffers in Hb. apply andb_true_iff in Hb as [Happ Hst].
    split; proj.
    + unfold ChannelsNode.all_application in *. rewrite forallb_app, Hall. cbn.
      now rewrite Happ.
    + intros Hc. rewrite Hc in Hst. discriminate.
  - destruct (send_passing_frame type data s Hb) as (-> & _). now split.
Qed.

Lemma forEach_send_disciplined xs : forall s,
  buffer_disciplined (channel s) ->
  buffer_disciplined (channel (after (forEach (fun '(type, data) => send type data) xs) s)).
Proof.
  induction xs as [|[type data] xs IH]; intros s H; [exact H|].
  cbn [forEach]. rewrite after_bind.
  pose proof (send_disciplined type data s H) as H1.
  destruct (fst (send type data s)) as [[]|err]; [now apply IH | exact H1].
Qed.

Lemma setConnectionStatus_disciplined next s :
  buffer_disciplined (channel s) ->
  buffer_disciplined (channel (after (setConnectionStatus next) s)).
Proof.
  intros [Hall Hconn]. destruct (status_eqb next Connected) eqn:E.
  - assert (next = Connected) as -> by (destruct next; cbn in E; congruence).
    unfold after. rewrite setConnectionStatus_connected_flush.
    apply forEach_send_disciplined. now split.
  - unfold after. rewrite setConnectionStatus_plain by (intros ->; discriminate). proj.
    split; proj; [exact Hall|]. intros ->. discriminate.
Qed.

Lemma handleEvents_disciplined e s :
  buffer_disciplined (channel s) -> buffer_disciplined (channel (after (handleEvents e) s)).
Proof.
  intros H. unfold after.
  apply (handleEvents_cases e s (fun r => buffer_disciplined (channel (snd r)))); cbn [snd];
    try exact H; [intros _; exact H|].
  intros _. cbv zeta.
  destruct (source_updated_frame e s) as (_ & _ & Hst & Hb & _).
  assert (H1 : buffer_disciplined (channel (source_updated e s)))
    by (destruct H as [Hall Hconn]; split; rewrite Hb; [exact Hall | now rewrite Hst]).
  pose proof H1 as [Hall1 Hconn1].
  refine (conj H1 (conj _ (conj _ (conj _ _)))).
  - apply send_disciplined. split; proj; [exact Hall1 | discriminate].
  - now apply setConnectionStatus_disciplined.
  - split; proj; [exact Hall1 | discriminate].
  - apply send_disciplined. now destruct (cfg_onEvent config).
Qed.

Lemma disconnect_channel s :
  channel (after disconnect s) = channel s \/
  channel (after disconnect s) = set_status Disconnected (channel s).
Proof.
  destruct (status_eqb (ch_status (channel s)) Disconnected) eqn:E.
  - left. unfold after, ChannelsNode.disconnect, bind. cbn [get_channel]. now rewrite E.
  - right. unfold after. rewrite disconnect_live; [reflexivity|].
    intros H. rewrite H in E. discriminate.
Qed.

Lemma destroy_channel s : channel (after destroy s) = channel (after disconnect s).
Proof.
  unfold ChannelsNode.destroy. rewrite after_bind.
  now destruct (fst (disconnect s)) as [[]|err].
Qed.

Lemma step_disciplined op s :
  buffer_disciplined (channel s) -> buffer_disciplined (channel (step op s)).
Proof.
  intros H. destruct op as [type data | e |]; cbn [ChannelsNode.step].
  - now apply send_disciplined.
  - destruct (listening s); [now apply handleEvents_disciplined | exact H].
  - rewrite destroy_channel. destruct (disconnect_channel s) as [-> | ->]; [exact H|].
    destruct H as [Hall _]. split; proj; [exact Hall | discriminate].
Qed.

(** X6: over any sequence of [send] calls, delivered events and [destroy]
    calls on a new node, the outbound buffer holds application payloads
    only, and it is empty whenever the status is 'connected'. *)
Theorem buffer_discipline ops :
  all_application (ch_buffer (channel (run ops createChannelsNode))) = true /\
  (ch_status (channel (run ops createChannelsNode)) = Connected ->
   ch_buffer (channel (run ops createChannelsNode)) = []).
Proof.
  assert (H : forall s, buffer_disciplined (channel s) ->
                        buffer_disciplined (channel (run ops s))).
  { induction ops as [|op ops IH]; intros s Hs; [exact Hs|].
    change (run (op :: ops) s) with (run ops (step op s)).
    now apply IH, step_disciplined. }
  apply H. rewrite createChannelsNode_state. split; [reflexivity | discriminate].
Qed.

(** *** The status and its reports *)

Lemma status_change_assigned e s next :
  status_change e s = Some next -> ChannelsNode.assigned_status next = true.
Proof.
  unfold ChannelsNode.status_change. intros E.
  repeat match type of E with
         | (if ?b then _ else _) = _ => destruct b; try discriminate
         end; now inversion E.
Qed.

Lemma step_status op s :
  ch_status (channel (step op s)) = ch_status (channel s) \/
  ChannelsNode.assigned_status (ch_status (channel (step op s))) = true.
Proof.
  destruct op as [type data | e |]; cbn [ChannelsNode.step].
  - left. now destruct (send_frame type data s) as (_ & _ & _ & H & _).
  - destruct (listening s); [|now left].
    rewrite status_after_handleEvents.
    destruct (status_change e s) as [next|] eqn:E; [right | now left].
    now apply (status_change_assigned e s).
  - rewrite destroy_channel. destruct (disconnect_channel s) as [-> | ->]; [now left | now right].
Qed.

(** X7: the status of a node is 'connecting', 'connected' or
    'disconnected' after any sequence of [send] calls, delivered events and
    [destroy] calls: the node never takes the status 'reconnecting' or
    'unhealthy'. *)
Theorem status_never_reconnecting_nor_unhealthy ops :
  ChannelsNode.assigned_status (ch_status (channel (run ops createChannelsNode))) = true.
Proof.
  assert (H : forall s, ChannelsNode.assigned_status (ch_status (channel s)) = true ->
                        ChannelsNode.assigned_status (ch_status (channel (run ops s))) = true).
  { induction ops as [|op ops IH]; intros s Hs; [exact Hs|].
    change (run (op :: ops) s) with (run ops (step op s)).
    apply IH. destruct (step_status op s) as [-> | H]; assumption. }
  apply H. now rewrite createChannelsNode_state.
Qed.

Lemma status_reports_app tr tl :
  status_reports (tr ++ tl) = status_reports tr ++ status_reports tl.
Proof. apply omap_app. Qed.

Lemma sent_no_reports tl : Forall sent tl -> status_reports tl = [].
Proof.
  induction 1 as [|ev tl [Hp _] _ IH]; [reflexivity|].
  destruct ev; try discriminate. exact IH.
Qed.

Lemma send_reports type data s :
  status_reports (trace (after (send type data) s)) = status_reports (trace s).
Proof.
  destruct (send_sent type data s) as (tl & -> & F).
  now rewrite status_reports_app, (sent_no_reports tl F), app_nil_r.
Qed.

Lemma setConnectionStatus_reports next s :
  cfg_onStatusUpdate config = true ->
  status_reports (trace (after (setConnectionStatus next) s)) =
    status_reports (trace s) ++ [next].
Proof.
  intros Hcb.
  assert (Hr : status_report next = [OnStatusUpdate next])
    by (unfold ChannelsNode.status_report; now rewrite Hcb).
  destruct (status_eqb next Connected) eqn:E.
  - assert (next = Connected) as -> by (destruct next; cbn in E; congruence).
    unfold after. rewrite setConnectionStatus_connected_flush.
    match goal with |- context [forEach ?f ?xs ?x] =>
      destruct (forEach_send_sent xs x) as (tl & Ht & F) end.
    unfold after in Ht. rewrite Ht, status_reports_app, (sent_no_reports tl F), app_nil_r.
    proj. now rewrite status_reports_app, Hr.
  - unfold after. rewrite setConnectionStatus_plain by (intros ->; discriminate). proj.
    now rewrite status_reports_app, Hr.
Qed.

(** The last report is the status held. *)
Lemma handleEvents_in_sync e s :
  cfg_onStatusUpdate config = true ->
  last (status_reports (trace s)) = Some (ch_status (channel s)) ->
  last (status_reports (trace (after (handleEvents e) s)))
    = Some (ch_status (channel (after (handleEvents e) s))).
Proof.
  intros Hcb H. unfold after.
  assert (Hr : forall next, status_report next = [OnStatusUpdate next])
    by (intros next; unfold ChannelsNode.status_report; now rewrite Hcb).
  apply (handleEvents_cases e s
           (fun r => last (status_reports (trace (snd r)))
                     = Some (ch_status (channel (snd r))))); cbn [snd].
  - proj. now rewrite status_reports_app, app_nil_r.
  - intros _. exact H.
  - exact H.
  - intros _. cbv zeta.
    destruct (source_updated_frame e s) as (_ & _ & Hst & _ & _ & _ & Ht).
    assert (H1 : last (status_reports (trace (source_updated e s)))
                 = Some (ch_status (channel (source_updated e s))))
      by now rewrite Ht, Hst.
    refine (conj H1 (conj _ (conj _ (conj _ _)))).
    + match goal with |- context [send ?t ?d ?x] =>
        fold (after (send t d) x);
        rewrite (send_reports t d x);
        destruct (send_frame t d x) as (_ & _ & _ & -> & _) end.
      proj. rewrite Hr, status_reports_app. apply last_snoc.
    + fold (after (setConnectionStatus Connected) (source_updated e s)).
      rewrite (setConnectionStatus_reports _ _ Hcb).
      destruct (setConnectionStatus_frame Connected (source_updated e s))
        as (_ & _ & _ & -> & _).
      apply last_snoc.
    + proj. rewrite Hr, status_reports_app. apply last_snoc.
    + match goal with |- context [send ?t ?d ?x] =>
        fold (after (send t d) x);
        rewrite (send_reports t d x);
        destruct (send_frame t d x) as (_ & _ & _ & -> & _) end.
      destruct (cfg_onEvent config); [|exact H1].
      proj. now rewrite status_reports_app, app_nil_r.
Qed.

(** X8: with a status callback registered, the callback is kept informed:
    after any sequence of [send] calls, delivered events and [destroy] calls
    on a new node, the status last reported to it is the status the channel
    holds. *)
Theorem status_callback_in_sync ops :
  cfg_onStatusUpdate config = true ->
  last (status_reports (trace (run ops createChannelsNode)))
    = Some (ch_status (channel (run ops createChannelsNode))).
Proof.
  intros Hcb.
  assert (Hstep : forall op s,
            last (status_reports (trace s)) = Some (ch_status (channel s)) ->
            last (status_reports (trace (step op s))) = Some (ch_status (channel (step op s)))).
  { intros op s H. destruct op as [type data | e |]; cbn [ChannelsNode.step].
    - unfold ChannelsNode.sendPublic. rewrite send_reports.
      now destruct (send_frame type data s) as (_ & _ & _ & -> & _).
    - destruct (listening s); [now apply handleEvents_in_sync | exact H].
    - unfold ChannelsNode.destroy. rewrite after_bind.
      assert (Hd : last (status_reports (trace (after disconnect s)))
                   = Some (ch_status (channel (after disconnect s)))).
      { destruct (status_eqb (ch_status (channel s)) Disconnected) eqn:E.
        - unfold after, ChannelsNode.disconnect, bind. cbn [get_channel]. now rewrite E.
        - unfold after. rewrite disconnect_live
            by (intros Hs; rewrite Hs in E; discriminate).
          proj. unfold ChannelsNode.status_report. rewrite Hcb, status_reports_app.
          apply last_snoc. }
      destruct (fst (disconnect s)) as [[]|err]; exact Hd. }
  assert (H : forall s, last (status_reports (trace s)) = Some (ch_status (channel s)) ->
                        last (status_reports (trace (run ops s)))
                        = Some (ch_status (channel (run ops s)))).
  { induction ops as [|op ops IH]; intros s Hs; [exact Hs|].
    change (run (op :: ops) s) with (run ops (step op s)). now apply IH, Hstep. }
  apply H. rewrite createChannelsNode_state. proj.
  unfold ChannelsNode.status_report. now rewrite Hcb.
Qed.

(** *** Exceptions *)

Lemma send_refused type data s sink target :
  buffers type s = false ->
  ch_source (channel s) = Some sink ->
  ch_origin (channel s) = Some target ->
  truthy (ch_id (channel s)) = true ->
  target <> "" ->
  postMessage sink (outgoing type data s) target = false ->
  send type data s =
    (Thrown (PostMessageFailed (next_uuid s) (cfg_id config)), uuid_taken s).
Proof.
  intros Hb Hs Ho Ht Hne Hp.
  unfold ChannelsNode.buffers, ChannelsNode.isApplicationType in Hb.
  unfold ChannelsNode.send, bind. cbn [get_channel]. rewrite Hb, Ho, Hs, Ht.
  apply String.eqb_neq in Hne. rewrite Hne. cbn [negb andb uuid].
  unfold ChannelsNode.outgoing in Hp. now rewrite Hp.
Qed.

Section ReliableTransport.

Hypothesis accepts : forall sink msg target, postMessage sink msg target = true.





End ReliableTransport.


(** X3: when the transport throws, [send] throws the error that names the
    message id and the node; the id is used up, and the channel record
    (status, buffer, pins) and the trace are as before: the message is not
    put into the buffer. *)
Theorem delivery_failure_reported type data s sink target :
  buffers type s = false ->
  ch_source (channel s) = Some sink ->
  ch_origin (channel s) = Some target ->
  truthy (ch_id (channel s)) = true ->
  target <> "" ->
  postMessage sink (outgoing type data s) target = false ->
  send type data s =
    (Thrown (PostMessageFailed (next_uuid s) (cfg_id config)), uuid_taken s).
Proof. apply send_refused. Qed.

(** X10: a transport failure during the flush loses the buffer.  When the
    node enters 'connected' with identifier, origin and sink set and the
    transport throws on the first buffered message, [setConnectionStatus]
    throws the delivery error of that message; the status is 'connected',
    reported, and the buffer is empty although none of its entries reached
    the sink. *)
Theorem flush_failure_loses_buffer s sink target type data rest :
  ch_buffer (channel s) = (type, data) :: rest ->
  ch_source (channel s) = Some sink ->
  ch_origin (channel s) = Some target ->
  truthy (ch_id (channel s)) = true ->
  target <> "" ->
  postMessage sink (outgoing type data s) target = false ->
  setConnectionStatus Connected s =
    (Thrown (PostMessageFailed (next_uuid s) (cfg_id config)),
     uuid_taken (with_channel (set_buffer [])
                   (recorded (status_report Connected)
                      (with_channel (set_status Connected) s)))).
Proof.
  intros Hbuf Hs Ho Ht Hne Hp.
  rewrite setConnectionStatus_connected_flush, Hbuf. cbn [forEach]. unfold bind.
  rewrite (send_refused type data _ sink target);
    [reflexivity | now apply passing_not_buffers | exact Hs | exact Ho | exact Ht
    | exact Hne | exact Hp].
Qed.

(** *** No delivery before 'connected' *)

Lemma send_connecting_wire type data s :
  ch_status (channel s) = Connecting ->
  wire (after (send type data) s) = wire s.
Proof.
  intros Hst. destruct (isApplicationType type) eqn:Happ.
  - unfold after. rewrite send_buffering; [reflexivity|].
    unfold ChannelsNode.buffers. now rewrite Happ, Hst.
  - now destruct (send_protocol_wire type data s Happ).
Qed.

Lemma handleEvents_connecting_wire e s :
  ch_status (channel s) = Connecting ->
  ch_status (channel (after (handleEvents e) s)) = Connecting ->
  wire (after (handleEvents e) s) = wire s.
Proof.
  unfold after. intros Hst.
  apply (handleEvents_cases e s
           (fun r => ch_status (channel (snd r)) = Connecting -> wire (snd r) = wire s));
    cbn [snd].
  - intros _. rewrite wire_recorded. apply app_nil_r.
  - reflexivity.
  - reflexivity.
  - intros _. cbv zeta.
    destruct (source_updated_frame e s) as (_ & _ & Hst1 & _ & _ & _ & Ht).
    assert (Hw1 : wire (source_updated e s) = wire s) by now apply wire_trace.
    refine (conj (fun _ => Hw1) (conj _ (conj _ (conj _ _)))).
    + intros _.
      match goal with |- context [send ?t ?d ?x] =>
        fold (after (send t d) x); rewrite (send_connecting_wire t d x) by reflexivity end.
      rewrite wire_recorded, posted_status_report. cbn. rewrite app_nil_r.
      now apply wire_trace.
    + intros H. exfalso.
      fold (after (setConnectionStatus Connected) (source_updated e s)) in H.
      destruct (setConnectionStatus_frame Connected (source_updated e s))
        as (_ & _ & _ & H' & _).
      rewrite H' in H. discriminate.
    + proj. discriminate.
    + intros _.
      match goal with |- context [send ?t ?d ?x] =>
        fold (after (send t d) x); rewrite (send_connecting_wire t d x) end.
      * destruct (cfg_onEvent config); [|exact Hw1].
        rewrite wire_recorded. cbn. now rewrite app_nil_r.
      * destruct (cfg_onEvent config); proj; now rewrite Hst1.
Qed.

(** X11: no application payload reaches the peer before the status leaves
    'connecting': over a sequence of [send] calls, delivered events and
    [destroy] calls on a new node during which the status is 'connecting'
    throughout, nothing of an application type is handed to the sink. *)
Theorem no_delivery_while_connecting ops :
  always_connecting ops createChannelsNode = true ->
  wire (run ops createChannelsNode) = [].
Proof.
  assert (H : forall s, always_connecting ops s = true -> wire (run ops s) = wire s).
  { induction ops as [|op ops IH]; intros s Hs; [reflexivity|].
    cbn [ChannelsNode.always_connecting] in Hs. apply andb_true_iff in Hs as [Hst Hrest].
    assert (Hc : ch_status (channel s) = Connecting)
      by (destruct (ch_status (channel s)); cbn in Hst; congruence).
    change (run (op :: ops) s) with (run ops (step op s)).
    rewrite (IH _ Hrest).
    assert (Hc' : ch_status (channel (step op s)) = Connecting).
    { destruct ops; cbn [ChannelsNode.always_connecting] in Hrest;
        apply andb_true_iff in Hrest as [Hst' _];
        destruct (ch_status (channel (step op s))); cbn in Hst'; congruence. }
    destruct op as [type data | e |]; cbn [ChannelsNode.step] in *.
    - now apply send_connecting_wire.
    - destruct (listening s); [now apply handleEvents_connecting_wire | reflexivity].
    - exfalso. rewrite destroy_channel in Hc'.
      destruct (disconnect_channel s) as [E | E]; rewrite E in Hc'; [|discriminate].
      assert (Hd : ch_status (channel (after disconnect s)) = Connecting)
        by (rewrite E; exact Hc).
      unfold after in Hd. rewrite disconnect_live in Hd by (rewrite Hc; discriminate).
      discriminate. }
  intros Hall. rewrite (H _ Hall), createChannelsNode_state.
  unfold ChannelsNode.wire. proj. now rewrite posted_status_report.
Qed.

(** X12: an inbound 'channel/disconnect' (no legacy handshake, valid, past
    the origin check, the type being no handshake type) with the session id
    and origin of the channel sets the status to 'disconnected' and reports
    it, and does nothing else: the buffer keeps its entries, nothing is
    posted, the handler is not called.  With another session id it only
    updates the sink. *)
Theorem peer_disconnect e s :
  isHandshakeMessage helpers "channel/disconnect" = false ->
  isLegacyHandshakeMessage helpers e = false ->
  isValidMessageEvent e s = (Normal true, s) ->
  origin_rejected e s = false ->
  field_of (ev_data e) "type" = JStr "channel/disconnect" ->
  handleEvents e s =
    (Normal tt,
     if strict_eq (field_of (ev_data e) "connectionId") (ch_id (channel s))
        && origin_is (ev_origin e) (ch_origin (channel s))
     then recorded (status_report Disconnected)
                   (with_channel (set_status Disconnected) (source_updated e s))
     else source_updated e s).
Proof.
  intros Hnh Hl Hv Ho Hty.
  destruct (valid_event e s Hv) as [Hn Hw].
  rewrite (handleEvents_routed e s Hl Hn Hw Ho).
  destruct (source_updated_frame e s) as (Hi & Hor & _).
  rewrite Hty, Hi, Hor. cbn [ChannelsNode.isHandshakeValue]. rewrite Hnh. cbn [andb].
  destruct (strict_eq _ (ch_id (channel s)) && origin_is _ _); [|reflexivity].
  cbn [strict_eq]. rewrite String.eqb_refl.
  now rewrite setConnectionStatus_plain by discriminate.
Qed.

(** *** The peers a node talks to *)

Local Abbreviation held_peer := ChannelsNode.held_peer.
Local Abbreviation peer_of := ChannelsNode.peer_of.
Local Abbreviation from_origin := ChannelsNode.from_origin.
Local Abbreviation from_source := ChannelsNode.from_source.
Local Abbreviation to_known_peer := ChannelsNode.to_known_peer.
Local Abbreviation peers_known := ChannelsNode.peers_known.

Lemma held_peer_same s s' ev :
  ch_source (channel s') = ch_source (channel s) ->
  ch_origin (channel s') = ch_origin (channel s) ->
  held_peer s' ev -> held_peer s ev.
Proof. intros Hs Ho. destruct ev; cbn; try easy. now rewrite Hs, Ho. Qed.

Lemma send_to_held_peer type data s :
  trace_extends (held_peer s) s (after (send type data) s).
Proof.
  destruct (buffers type s) eqn:Hb.
  - unfold after. rewrite (send_buffering type data s Hb). now apply trace_extends_same.
  - unfold after.
    destruct (send_passing type data s Hb)
      as [E | (sink & target & Hs & Ho & _ & _ & [[_ E] | [_ E]])]; rewrite E; cbn [snd].
    + apply trace_extends_refl.
    + apply trace_extends_recorded; [|reflexivity]. apply Forall_singleton. now split.
    + now apply trace_extends_same.
Qed.

Lemma forEach_send_to_held_peer xs : forall s,
  trace_extends (held_peer s) s (after (forEach (fun '(type, data) => send type data) xs) s).
Proof.
  induction xs as [|[type data] xs IH]; intros s.
  - apply trace_extends_refl.
  - cbn [forEach]. rewrite after_bind.
    pose proof (send_to_held_peer type data s) as H1.
    destruct (fst (send type data s)) as [[]|err]; [|exact H1].
    eapply trace_extends_trans; [exact H1|].
    destruct (send_frame type data s) as (_ & Ho & Hs & _).
    eapply trace_extends_impl; [|apply IH].
    intros ev. now apply held_peer_same.
Qed.

Lemma status_report_no_post (P : Effect -> Prop) next :
  (forall ev, ChannelsNode.is_post ev = false -> P ev) -> Forall P (status_report next).
Proof.
  intros H. unfold ChannelsNode.status_report.
  destruct (cfg_onStatusUpdate config); repeat constructor. now apply H.
Qed.

Lemma setConnectionStatus_to_held_peer next s :
  trace_extends (held_peer s) s (after (setConnectionStatus next) s).
Proof.
  assert (Hr : Forall (held_peer s) (status_report next))
    by (apply status_report_no_post; now intros []).
  destruct (status_eqb next Connected) eqn:E.
  - assert (next = Connected) as -> by (destruct next; cbn in E; congruence).
    unfold after. rewrite setConnectionStatus_connected_flush.
    eapply trace_extends_trans.
    2:{ eapply trace_extends_impl; [|apply forEach_send_to_held_peer].
        intros ev. now apply held_peer_same. }
    now apply (trace_extends_recorded _ _ s).
  - unfold after. rewrite setConnectionStatus_plain by (intros ->; discriminate).
    now apply trace_extends_recorded.
Qed.

(** Where [handleEvents] leaves the pins and where its replies go. *)
Lemma handleEvents_peers e s :
  (ch_origin (channel (after (handleEvents e) s)) = ch_origin (channel s) \/
   ch_origin (channel (after (handleEvents e) s)) = Some (ev_origin e)) /\
  (ch_source (channel (after (handleEvents e) s)) = ch_source (channel s) \/
   ch_source (channel (after (handleEvents e) s)) = ev_source e) /\
  trace_extends (peer_of e s) s (after (handleEvents e) s).
Proof.
  unfold after.
  apply (handleEvents_cases e s
    (fun r => (ch_origin (channel (snd r)) = ch_origin (channel s) \/
               ch_origin (channel (snd r)) = Some (ev_origin e)) /\
              (ch_source (channel (snd r)) = ch_source (channel s) \/
               ch_source (channel (snd r)) = ev_source e) /\
              trace_extends (peer_of e s) s (snd r))); cbn [snd].
  - refine (conj (or_introl eq_refl) (conj (or_introl eq_refl) _)).
    apply trace_extends_recorded; [repeat constructor | reflexivity].
  - intros _. refine (conj (or_introl eq_refl) (conj (or_introl eq_refl) _)).
    apply trace_extends_refl.
  - refine (conj (or_introl eq_refl) (conj (or_introl eq_refl) _)).
    apply trace_extends_refl.
  - intros _. cbv zeta.
    destruct (source_updated_frame e s) as (_ & Hor & _ & _ & _ & _ & Ht).
    pose proof (source_updated_source e s) as Hsrc.
    set (s1 := source_updated e s) in *.
    assert (Hheld : forall x ev,
              (ch_source (channel x) = ch_source (channel s1)) ->
              (ch_origin (channel x) = ch_origin (channel s) \/
               ch_origin (channel x) = Some (ev_origin e)) ->
              held_peer x ev -> peer_of e s ev).
    { intros x ev Hxs Hxo. destruct ev; cbn; try easy.
      intros [Hs Ho]. rewrite Hxs in Hs. split.
      - destruct Hsrc as [H | H]; rewrite H in Hs; [now left | now right].
      - destruct Hxo as [H | H]; rewrite H in Ho; [now left | right; congruence]. }
    assert (Hsend : forall t d x,
              ch_source (channel x) = ch_source (channel s1) ->
              (ch_origin (channel x) = ch_origin (channel s) \/
               ch_origin (channel x) = Some (ev_origin e)) ->
              trace_extends (peer_of e s) s x ->
              (ch_origin (channel (snd (send t d x))) = ch_origin (channel s) \/
               ch_origin (channel (snd (send t d x))) = Some (ev_origin e)) /\
              (ch_source (channel (snd (send t d x))) = ch_source (channel s) \/
               ch_source (channel (snd (send t d x))) = ev_source e) /\
              trace_extends (peer_of e s) s (snd (send t d x))).
    { intros t d x Hxs Hxo Hx.
      destruct (send_frame t d x) as (_ & Fo & Fs & _). unfold after in Fo, Fs.
      rewrite Fo, Fs, Hxs. refine (conj Hxo (conj Hsrc _)).
      eapply trace_extends_trans; [exact Hx|].
      eapply trace_extends_impl; [|apply send_to_held_peer]. intros ev. now apply Hheld. }
    refine (conj _ (conj _ (conj _ (conj _ _)))).
    + refine (conj (or_introl Hor) (conj Hsrc _)). now apply trace_extends_same.
    + apply Hsend; [reflexivity | now right |].
      apply trace_extends_recorded; [|exact Ht].
      apply status_report_no_post. now intros [].
    + destruct (setConnectionStatus_frame Connected s1) as (_ & Fo & Fs & _).
      unfold after in Fo, Fs. rewrite Fo, Fs.
      refine (conj (or_introl Hor) (conj Hsrc _)).
      eapply trace_extends_trans; [now apply (trace_extends_same _ s s1)|].
      eapply trace_extends_impl; [|apply setConnectionStatus_to_held_peer].
      intros ev. apply Hheld; [reflexivity | now left].
    + proj. refine (conj (or_introl Hor) (conj Hsrc _)).
      apply trace_extends_recorded; [|exact Ht].
      apply status_report_no_post. now intros [].
    + destruct (cfg_onEvent config).
      * apply Hsend; [reflexivity | now left |].
        apply trace_extends_recorded; [repeat constructor | exact Ht].
      * apply Hsend; [reflexivity | now left | now apply trace_extends_same].
Qed.

Lemma to_known_peer_more pre op ev : to_known_peer pre ev -> to_known_peer (pre ++ [op]) ev.
Proof.
  destruct ev; cbn; try easy.
  intros [(e1 & H1 & E1) (e2 & H2 & E2)].
  split; [exists e1 | exists e2]; (split; [apply in_or_app; now left | assumption]).
Qed.

Lemma step_peers_known pre op s :
  peers_known pre s -> peers_known (pre ++ [op]) (step op s).
Proof.
  intros (Ho & Hs & Ht).
  assert (Ho' : forall o, ch_origin (channel s) = Some o -> from_origin (pre ++ [op]) o).
  { intros o H. destruct (Ho o H) as (e & Hin & E). exists e.
    split; [apply in_or_app; now left | exact E]. }
  assert (Hs' : forall w, ch_source (channel s) = Some w -> from_source (pre ++ [op]) w).
  { intros w H. destruct (Hs w H) as (e & Hin & E). exists e.
    split; [apply in_or_app; now left | exact E]. }
  assert (Ht' : Forall (to_known_peer (pre ++ [op])) (trace s)).
  { eapply Forall_impl; [exact Ht|]. intros ev. apply to_known_peer_more. }
  assert (Hheld : forall ev, held_peer s ev -> to_known_peer (pre ++ [op]) ev).
  { intros ev. destruct ev; cbn; try easy. intros [H1 H2]. split; [now apply Hs' | now apply Ho']. }
  destruct op as [type data | e |]; cbn [ChannelsNode.step].
  - destruct (send_frame type data s) as (_ & Fo & Fs & _).
    destruct (send_to_held_peer type data s) as (tl & E & F).
    unfold ChannelsNode.sendPublic, ChannelsNode.peers_known. rewrite Fo, Fs, E.
    refine (conj Ho' (conj Hs' _)). apply Forall_app. split; [exact Ht'|].
    eapply Forall_impl; [exact F | exact Hheld].
  - destruct (listening s); [|now refine (conj Ho' (conj Hs' Ht'))].
    assert (Hin : In (Deliver e) (pre ++ [Deliver e]))
      by (apply in_or_app; right; now left).
    destruct (handleEvents_peers e s) as (Fo & Fs & tl & E & F).
    unfold ChannelsNode.peers_known. rewrite E. refine (conj _ (conj _ _)).
    + intros o H. destruct Fo as [Fo | Fo]; rewrite Fo in H; [now apply Ho'|].
      exists e. split; [exact Hin | congruence].
    + intros w H. destruct Fs as [Fs | Fs]; rewrite Fs in H; [now apply Hs'|].
      exists e. now split.
    + apply Forall_app. split; [exact Ht'|].
      eapply Forall_impl; [exact F|]. intros ev. destruct ev; cbn; try easy.
      intros [[H1 | H1] [H2 | H2]]; split;
        try (now apply Hs'); try (now apply Ho'); exists e; now split.
  - unfold ChannelsNode.peers_known.
    rewrite destroy_channel.
    assert (Hch : ch_origin (channel (after disconnect s)) = ch_origin (channel s) /\
                  ch_source (channel (after disconnect s)) = ch_source (channel s))
      by (destruct (disconnect_channel s) as [-> | ->]; now split).
    destruct Hch as [-> ->]. refine (conj Ho' (conj Hs' _)).
    unfold ChannelsNode.destroy. rewrite after_bind.
    assert (Hd : Forall (to_known_peer (pre ++ [CallDestroy])) (trace (after disconnect s))).
    { destruct (setConnectionStatus_to_held_peer Disconnected s) as (tl & E & F).
      unfold after, ChannelsNode.disconnect, bind. cbn [get_channel].
      destruct (status_eqb (ch_status (channel s)) Disconnected); [exact Ht'|].
      unfold after in E. rewrite E. apply Forall_app. split; [exact Ht'|].
      eapply Forall_impl; [exact F | exact Hheld]. }
    now destruct (fst (disconnect s)) as [[]|err].
Qed.

(** X13: a node talks only to those it has heard from.  Over any sequence
    of [send] calls, delivered events and [destroy] calls on a new node,
    every call of [postMessage] goes to a sink that was the source of a
    delivered event, with a target origin that was the origin of a
    delivered event. *)
Theorem posts_go_to_known_peers ops sink msg target :
  In (PostMessage sink msg target) (trace (run ops createChannelsNode)) ->
  (exists e, In (Deliver e) ops /\ ev_source e = Some sink) /\
  (exists e, In (Deliver e) ops /\ ev_origin e = target).
Proof.
  assert (H : forall s pre, peers_known pre s -> peers_known (pre ++ ops) (run ops s)).
  { induction ops as [|op ops IH]; intros s pre Hs.
    - now rewrite app_nil_r.
    - change (run (op :: ops) s) with (run ops (step op s)).
      replace (pre ++ op :: ops) with ((pre ++ [op]) ++ ops) by now rewrite <- app_assoc.
      now apply IH, step_peers_known. }
  assert (H0 : peers_known [] createChannelsNode).
  { rewrite createChannelsNode_state. refine (conj _ (conj _ _)); try discriminate.
    proj. apply status_report_no_post. now intros []. }
  destruct (H _ _ H0) as (_ & _ & F). cbn [app] in F.
  intros Hin. apply list_elem_of_In in Hin.
  rewrite Forall_forall in F. exact (F _ Hin).
Qed.

Lemma disconnect_returns s : fst (disconnect s) = Normal tt.
Proof.
  unfold ChannelsNode.disconnect, bind. cbn [get_channel].
  destruct (status_eqb (ch_status (channel s)) Disconnected); [reflexivity|].
  now rewrite setConnectionStatus_plain by discriminate.
Qed.

(** X14: [destroy()] does not silence the node.  With identifier, origin
    and sink set and a transport that takes the envelope, a [send] after
    [destroy()] hands the message to the peer, whatever its type. *)
Theorem send_after_destroy_still_posts type data s sink target :
  ch_source (channel s) = Some sink ->
  ch_origin (channel s) = Some target ->
  truthy (ch_id (channel s)) = true ->
  target <> "" ->
  postMessage sink (outgoing type data (after destroy s)) target = true ->
  ch_status (channel (after destroy s)) = Disconnected /\
  listening (after destroy s) = false /\
  send type data (after destroy s) =
    (Normal tt, recorded [PostMessage sink (outgoing type data (after destroy s)) target]
                         (uuid_taken (after destroy s))).
Proof.
  intros Hs Ho Ht Hne Hp.
  assert (Hch : channel (after destroy s) = set_status Disconnected (channel s)).
  { rewrite destroy_channel.
    destruct (status_eqb (ch_status (channel s)) Disconnected) eqn:E.
    - assert (Hx : ch_status (channel s) = Disconnected)
        by (destruct (ch_status (channel s)); cbn in E; congruence).
      unfold after, ChannelsNode.disconnect, bind. cbn [get_channel]. rewrite E.
      unfold ret, set_status. cbn [snd].
      destruct (channel s) as [b i o w st]. cbn in Hx |- *. now subst st.
    - unfold after. rewrite disconnect_live; [reflexivity|].
      intros H. rewrite H in E. discriminate. }
  split; [now rewrite Hch|]. split.
  - unfold ChannelsNode.destroy, after, bind. pose proof (disconnect_returns s) as Hr.
    destruct (disconnect s) as [[[]|err] x]; [reflexivity | discriminate].
  - apply send_posts; try assumption; rewrite ?Hch; try assumption.
    apply passing_not_buffers. unfold ChannelsNode.passing. now rewrite Hch.
Qed.

(** *** The pins *)

(** X15: the sink follows the source.  An event that is no legacy
    handshake, passes [isValidMessageEvent] and the origin check, and has a
    source, leaves that source as the sink of the channel, whatever its type
    and session id: the sink is updated before the session id is looked at. *)
Theorem sink_follows_source e s w :
  isLegacyHandshakeMessage helpers e = false ->
  isValidMessageEvent e s = (Normal true, s) ->
  origin_rejected e s = false ->
  ev_source e = Some w ->
  ch_source (channel (after (handleEvents e) s)) = Some w.
Proof.
  intros Hl Hv Ho Hsrc. destruct (valid_event e s Hv) as [Hn Hw].
  rewrite (source_after_routing e s Hl Hn Hw Ho), source_updated_reply_sink.
  unfold ChannelsNode.reply_sink. now rewrite Hsrc.
Qed.

Lemma syn_reply x :
  (setConnectionStatus Connecting ;;;
   ch' <- get_channel ;;
   send "handshake/syn-ack" (JObj [("id", ch_id ch')])) x
  = send "handshake/syn-ack" (JObj [("id", ch_id (channel x))])
      (recorded (status_report Connecting) (with_channel (set_status Connecting) x)).
Proof.
  unfold bind at 1. rewrite setConnectionStatus_plain by discriminate.
  unfold bind at 1. reflexivity.
Qed.

Lemma handler_then_response ev type data x :
  (when (cfg_onEvent config) (emit ev) ;;; send type data) x
  = send type data (if cfg_onEvent config then recorded [ev] x else x).
Proof. unfold bind, when. now destruct (cfg_onEvent config). Qed.

(** X16: the session id and the pinned origin change only on a
    handshake-open.  After [handleEvents] both are as before, or the event
    is a 'handshake/syn' with a truthy payload, the session id is the [id] of
    that payload and the origin is the origin of the event. *)
Theorem pins_change_only_on_syn e s :
  (ch_id (channel (after (handleEvents e) s)) = ch_id (channel s) /\
   ch_origin (channel (after (handleEvents e) s)) = ch_origin (channel s)) \/
  (field_of (ev_data e) "type" = JStr "handshake/syn" /\
   truthy (field_of (ev_data e) "data") = true /\
   ch_id (channel (after (handleEvents e) s)) = field_of (field_of (ev_data e) "data") "id" /\
   ch_origin (channel (after (handleEvents e) s)) = Some (ev_origin e)).
Proof.
  destruct (isLegacyHandshakeMessage helpers e) eqn:Hl.
  { left. unfold after. now rewrite (handleEvents_legacy e s Hl). }
  destruct (nullish (ev_data e)) eqn:Hn.
  { left. unfold after. now rewrite (handleEvents_nullish e s Hl Hn). }
  destruct (well_addressed e) eqn:Hw.
  2:{ left. unfold after. now rewrite (handleEvents_invalid e s Hl Hn Hw). }
  destruct (origin_rejected e s) eqn:Ho.
  { left. unfold after. now rewrite (handleEvents_foreign_origin e s Hl Hn Hw Ho). }
  unfold after. rewrite (handleEvents_routed e s Hl Hn Hw Ho).
  destruct (source_updated_frame e s) as (Hi & Hor & _).
  set (s1 := source_updated e s) in *.
  destruct (isHandshakeValue _ && truthy _) eqn:Hh.
  - destruct (strict_eq _ (JStr "handshake/syn")) eqn:Hsy.
    + right. apply andb_true_iff in Hh as [_ Hpay].
      assert (Hty : field_of (ev_data e) "type" = JStr "handshake/syn").
      { destruct (field_of (ev_data e) "type") as [| | | |t|]; try discriminate.
        cbn in Hsy. apply String.eqb_eq in Hsy. now subst t. }
      refine (conj Hty (conj Hpay _)).
      rewrite syn_reply.
      match goal with |- context [send ?t ?d ?x] =>
        destruct (send_frame t d x) as (Fi & Fo & _) end.
      unfold after in Fi, Fo. rewrite Fi, Fo. now split.
    + left. destruct (strict_eq _ (JStr "handshake/ack")); [|now split].
      unfold when. destruct (strict_eq _ (ch_id (channel s1))); [|now split].
      destruct (setConnectionStatus_frame Connected s1) as (Fi & Fo & _).
      unfold after in Fi, Fo. rewrite Fi, Fo. now split.
  - left. destruct (strict_eq _ (ch_id (channel s1)) && origin_is _ _); [|now split].
    destruct (strict_eq _ (JStr "channel/disconnect")).
    + destruct (setConnectionStatus_frame Disconnected s1) as (Fi & Fo & _).
      unfold after in Fi, Fo. rewrite Fi, Fo. now split.
    + rewrite handler_then_response.
      match goal with |- context [send ?t ?d ?x] =>
        destruct (send_frame t d x) as (Fi & Fo & _) end.
      unfold after in Fi, Fo. rewrite Fi, Fo. now destruct (cfg_onEvent config).
Qed.

End NodeFacts.

(** * The theorems at concrete nodes *)

Lemma submission_order_kept_witness :
  let ops := [Deliver syn_event; CallSend "a" (JNum 1); CallSend "b" (JNum 2);
              Deliver ack_event; CallSend "c" (JNum 3)] in
  let entered := after (ChannelsNode.setConnectionStatus overlays std_helpers reliable Connected)
                       node_buffered in
  (isHandshakeMessage std_helpers "handshake/syn-ack" = true /\
   isInternalMessage std_helpers "channel/response" = true /\
   ChannelsNode.sends_while_live overlays std_helpers reliable ops node0 = true /\
   ch_source (channel node_buffered) = Some 1 /\
   ch_origin (channel node_buffered) = Some studio /\
   truthy (ch_id (channel node_buffered)) = true /\
   studio <> "" /\
   (forall msg, reliable 1 msg studio = true)) /\
  ChannelsNode.wire std_helpers (ChannelsNode.run overlays std_helpers reliable ops node0)
    ++ ch_buffer (channel (ChannelsNode.run overlays std_helpers reliable ops node0))
    `sublist_of` ChannelsNode.application_payloads std_helpers (ChannelsNode.submitted ops) /\
  ch_status (channel entered) = Connected /\
  ch_buffer (channel entered) = [] /\
  posted (trace entered) = posted (trace node_buffered) ++ [("a", JNum 1); ("b", JNum 2)].
Proof.
  cbv zeta.
  assert (Hne : studio <> "") by discriminate.
  destruct (submission_order_kept overlays std_helpers reliable eq_refl eq_refl)
    as (Horder & Hflush).
  split; [repeat split; exact Hne|].
  split.
  - apply Horder. reflexivity.
  - exact (Hflush node_buffered 1 studio eq_refl eq_refl eq_refl Hne (fun _ => eq_refl)).
Defined.

(** C1 as stated fails: a payload submitted while 'disconnected' goes out at
    once and overtakes the one that waits in the buffer for the next
    'connected'. *)
Lemma order_reversed_after_disconnect :
  let ops := [Deliver syn_event; CallSend "a" (JNum 1); Deliver disconnect_event;
              CallSend "b" (JNum 2); Deliver ack_event] in
  let final := ChannelsNode.run overlays std_helpers reliable ops node0 in
  ChannelsNode.application_payloads std_helpers (ChannelsNode.submitted ops)
    = [("a", JNum 1); ("b", JNum 2)] /\
  ChannelsNode.wire std_helpers final = [("b", JNum 2); ("a", JNum 1)] /\
  ch_buffer (channel final) = [] /\
  ~ (ChannelsNode.wire std_helpers final
       `sublist_of` ChannelsNode.application_payloads std_helpers (ChannelsNode.submitted ops)).
Proof.
  cbv zeta. split; [reflexivity|]. split; [reflexivity|]. split; [reflexivity|].
  change (~ ([("b", JNum 2); ("a", JNum 1)] `sublist_of` [("a", JNum 1); ("b", JNum 2)])).
  intros H. inversion H as [| x l k H1 | x l k H1]; subst.
  inversion H1 as [| x l k H2 | x l k H2]; subst.
  - inversion H2.
  - inversion H2.
Qed.

Lemma session_mismatch_never_reaches_handler_witness :
  strict_eq (field_of (ev_data stale_ping_event) "connectionId") (ch_id (channel node_connected))
    = false /\
  ch_id (channel node_connected) = JStr "s1" /\
  handler_calls (trace (deliver stale_ping_event node_connected))
    = handler_calls (trace node_connected).
Proof.
  split; [reflexivity|]. split; [reflexivity|].
  apply (session_mismatch_never_reaches_handler overlays std_helpers reliable).
  reflexivity.
Defined.

Lemma foreign_origin_rejected_witness :
  (ch_origin (channel node_connected) = Some studio /\ studio <> "" /\
   ev_origin foreign_syn_event <> studio) /\
  (deliver foreign_syn_event node_connected = node_connected \/
   deliver foreign_syn_event node_connected = recorded [ConsoleError] node_connected).
Proof.
  assert (H1 : studio <> "") by discriminate.
  assert (H2 : ev_origin foreign_syn_event <> studio) by discriminate.
  split; [repeat split; assumption|].
  exact (foreign_origin_rejected overlays std_helpers reliable foreign_syn_event
           node_connected studio eq_refl H1 H2).
Defined.

(** C3 as stated fails: an origin pinned to the empty string, as a
    synthetic event leaves it, is not null and yet does not make the node
    turn away an event from another origin; a handshake-open from elsewhere
    re-pins the channel and gets its reply. *)
Lemma empty_origin_admits_foreign_origin :
  let s := deliver synthetic_syn_event node0 in
  let s' := deliver foreign_syn_event s in
  ch_origin (channel s) = Some "" /\
  ev_origin foreign_syn_event = elsewhere /\
  ch_origin (channel s') = Some elsewhere /\
  ch_id (channel s') = JStr "x" /\
  ch_source (channel s') = Some 2 /\
  trace s' = trace s ++
    [OnStatusUpdate Connecting;
     PostMessage 2 (mkMsg (JStr "x") (JObj [("id", JStr "x")]) DOMAIN "overlays" 0
                          "presentation" "handshake/syn-ack") elsewhere].
Proof. cbv zeta. repeat split. Qed.

Lemma send_buffers_while_connecting_witness :
  (isHandshakeMessage std_helpers "ping" = false /\
   isInternalMessage std_helpers "ping" = false /\
   (ch_status (channel node_syn) = Connecting \/ ch_status (channel node_syn) = Reconnecting)) /\
  ChannelsNode.send overlays std_helpers reliable "ping" (JNum 1) node_syn =
    (Normal tt,
     with_channel (set_buffer (ch_buffer (channel node_syn) ++ [("ping", JNum 1)])) node_syn).
Proof.
  split; [repeat split; left; reflexivity|].
  apply (send_buffers_while_connecting overlays std_helpers reliable);
    [reflexivity | reflexivity | left; reflexivity].
Defined.

(** C4 as stated fails: in status 'disconnected', which is not 'connected',
    a [send] of an application type is not buffered but handed to the sink. *)
Lemma send_passes_while_disconnected :
  ch_status (channel node_disconnected) = Disconnected /\
  isHandshakeMessage std_helpers "ping" = false /\
  isInternalMessage std_helpers "ping" = false /\
  ch_buffer (channel (call_send "ping" (JNum 1) node_disconnected)) = [] /\
  trace (call_send "ping" (JNum 1) node_disconnected) =
    trace node_disconnected ++
    [PostMessage 1 (mkMsg (JStr "s1") (JNum 1) DOMAIN "overlays" 1 "presentation" "ping")
                 studio].
Proof. repeat split. Qed.

Lemma disconnect_is_local_witness :
  ch_status (channel node_connected) <> Disconnected /\
  ChannelsNode.disconnect overlays std_helpers reliable node_connected =
    (Normal tt, recorded (ChannelsNode.status_report overlays Disconnected)
                         (with_channel (set_status Disconnected) node_connected)) /\
  ch_status (channel (after (ChannelsNode.disconnect overlays std_helpers reliable)
                            node_connected)) = Disconnected /\
  posted (trace (after (ChannelsNode.disconnect overlays std_helpers reliable) node_connected))
    = posted (trace node_connected).
Proof.
  assert (H : ch_status (channel node_connected) <> Disconnected) by discriminate.
  split; [exact H|].
  exact (disconnect_is_local overlays std_helpers reliable node_connected H).
Defined.

(** C5 as stated fails: [disconnect()] on a connected node with a known
    sink reports the status and hands nothing to the sink. *)
Lemma disconnect_sends_nothing :
  ch_status (channel node_connected) = Connected /\
  ch_source (channel node_connected) = Some 1 /\
  trace (after (ChannelsNode.disconnect overlays std_helpers reliable) node_connected) =
    trace node_connected ++ [OnStatusUpdate Disconnected].
Proof. repeat split. Qed.

Lemma handshake_responder_witness :
  (isHandshakeMessage std_helpers "handshake/syn" = true /\
   isHandshakeMessage std_helpers "handshake/syn-ack" = true /\
   isHandshakeMessage std_helpers "handshake/ack" = true) /\
  (ch_id (channel node_syn) = JStr "s1" /\
   ch_origin (channel node_syn) = Some studio /\
   ch_status (channel node_syn) = Connecting /\
   trace node_syn = trace node0 ++ ChannelsNode.status_report overlays Connecting ++
     [PostMessage 1 (mkMsg (JStr "s1") (JObj [("id", JStr "s1")]) DOMAIN "overlays" 0
                           "presentation" "handshake/syn-ack") studio]) /\
  ch_status (channel node_connected) = Connected /\
  (ch_status (channel node_syn) = Connected \/
   (field_of (ev_data ack_event) "type" = JStr "handshake/ack" /\
    truthy (field_of (ev_data ack_event) "data") = true /\
    strict_eq (field_of (field_of (ev_data ack_event) "data") "id") (ch_id (channel node_syn))
      = true)).
Proof.
  destruct (handshake_responder overlays std_helpers reliable eq_refl eq_refl eq_refl)
    as (Hsyn & Hack & Honly).
  split; [repeat split|].
  split; [|split].
  - destruct (Hsyn syn_event node0 eq_refl eq_refl eq_refl eq_refl eq_refl)
      as (Hi & Ho & Hs & Ht).
    split; [exact Hi|]. split; [exact Ho|]. split; [exact Hs|].
    apply (Ht 1); [reflexivity | reflexivity | discriminate | reflexivity].
  - exact (proj1 (Hack ack_event node_syn eq_refl eq_refl eq_refl eq_refl eq_refl eq_refl)).
  - apply (Honly ack_event node_syn). reflexivity.
Defined.

(** C6 as stated fails: the node mints no session id.  A handshake-open
    that carries the id the channel already holds leaves that id in place
    and gets it back in the reply; one that carries no payload pins nothing
    and gets no reply. *)
Lemma session_id_adopted_not_minted :
  ch_id (channel node_syn) = JStr "s1" /\
  ch_id (channel (deliver syn_event node_syn)) = ch_id (channel node_syn) /\
  trace (deliver syn_event node_syn) = trace node_syn ++
    [OnStatusUpdate Connecting;
     PostMessage 1 (mkMsg (JStr "s1") (JObj [("id", JStr "s1")]) DOMAIN "overlays" 1
                          "presentation" "handshake/syn-ack") studio] /\
  ChannelsNode.isValidMessageEvent overlays bare_syn_event node0 = (Normal true, node0) /\
  ch_id (channel (deliver bare_syn_event node0)) = JNull /\
  ch_origin (channel (deliver bare_syn_event node0)) = None /\
  trace (deliver bare_syn_event node0) = trace node0.
Proof. repeat split. Qed.

Lemma nullish_data_throws_witness :
  (isLegacyHandshakeMessage std_helpers null_event = false /\
   (ev_data null_event = JNull \/ ev_data null_event = JUndefined)) /\
  ChannelsNode.handleEvents overlays std_helpers reliable null_event node_connected =
    (Thrown TypeError, node_connected).
Proof.
  split; [split; [reflexivity | left; reflexivity]|].
  apply (nullish_data_throws overlays std_helpers reliable);
    [reflexivity | left; reflexivity].
Defined.

Lemma application_envelope_handled_witness :
  (isInternalMessage std_helpers "channel/disconnect" = true /\
   isInternalMessage std_helpers "channel/response" = true) /\
  handler_calls (trace (deliver ping_event node_connected)) =
    handler_calls (trace node_connected) ++ [(JStr "ping", JObj [("n", JNum 1)])] /\
  trace (deliver ping_event node_connected) =
    trace node_connected ++
    [OnEvent (JStr "ping") (JObj [("n", JNum 1)]);
     PostMessage 1 (mkMsg (JStr "s1") (JObj [("responseTo", JStr "m4")]) DOMAIN "overlays" 1
                          "presentation" "channel/response") studio] /\
  handler_calls (trace (deliver disconnect_event node_connected)) =
    handler_calls (trace node_connected).
Proof.
  destruct (application_envelope_handled overlays std_helpers reliable eq_refl eq_refl)
    as (Happ & Hnot).
  split; [repeat split|].
  destruct (Happ ping_event node_connected "ping"
              eq_refl eq_refl eq_refl eq_refl eq_refl eq_refl eq_refl) as (Hcalls & Hreply).
  split; [exact Hcalls|]. split.
  - apply (Hreply 1); [reflexivity | reflexivity | discriminate | reflexivity].
  - apply (Hnot disconnect_event node_connected). right. left. reflexivity.
Defined.

(** C8 as stated fails: an accepted application-type envelope reaches the
    handler, but with no sink known (the events so far had no source) no
    'channel/response' is sent back. *)
Lemma no_response_without_sink :
  let s := deliver sourceless_syn_event node0 in
  ChannelsNode.isValidMessageEvent overlays sourceless_ping_event s = (Normal true, s) /\
  strict_eq (field_of (ev_data sourceless_ping_event) "connectionId") (ch_id (channel s))
    = true /\
  ch_origin (channel s) = Some (ev_origin sourceless_ping_event) /\
  ChannelsNode.isApplicationType std_helpers "ping" = true /\
  ch_source (channel s) = None /\
  trace (deliver sourceless_ping_event s) =
    trace s ++ [OnEvent (JStr "ping") (JObj [("n", JNum 1)])].
Proof. cbv zeta. repeat split. Qed.

(** C9 as stated fails: before any origin is pinned, a valid envelope from
    whatever origin sets the sink. *)
Lemma sink_set_before_pinning :
  ch_origin (channel node0) = None /\
  ch_source (channel node0) = None /\
  ChannelsNode.isValidMessageEvent overlays foreign_ping_event node0 = (Normal true, node0) /\
  ev_source foreign_ping_event = Some 7 /\
  ch_source (channel (deliver foreign_ping_event node0)) = Some 7 /\
  ch_origin (channel (deliver foreign_ping_event node0)) = None.
Proof. repeat split. Qed.

Lemma response_envelope_ignored_witness :
  field_of (ev_data response_event) "type" = JStr "channel/response" /\
  ChannelsNode.isValidMessageEvent overlays response_event node_connected
    = (Normal false, node_connected) /\
  fst (ChannelsNode.handleEvents overlays std_helpers reliable response_event node_connected)
    = Normal tt /\
  (deliver response_event node_connected = node_connected \/
   deliver response_event node_connected = recorded [ConsoleError] node_connected).
Proof.
  split; [reflexivity|].
  apply (response_envelope_ignored overlays std_helpers reliable). reflexivity.
Defined.

Lemma sink_update_condition_witness :
  (ch_origin (channel node_connected) = Some studio /\ studio <> "" /\
   ev_origin foreign_ping_event <> studio) /\
  ch_source (channel (deliver foreign_ping_event node_connected))
    = ch_source (channel node_connected).
Proof.
  assert (H1 : studio <> "") by discriminate.
  assert (H2 : ev_origin foreign_ping_event <> studio) by discriminate.
  split; [repeat split; assumption|].
  exact (proj2 (sink_update_condition overlays std_helpers reliable foreign_ping_event
                  node_connected) studio eq_refl H1 H2).
Defined.

(** * The further properties at concrete nodes *)

Lemma misaddressed_event_dropped_witness :
  (strict_eq (field_of (ev_data loaders_ping_event) "domain") (JStr DOMAIN) = false \/
   strict_eq (field_of (ev_data loaders_ping_event) "to") (JStr (cfg_id overlays)) = false \/
   strict_eq (field_of (ev_data loaders_ping_event) "from") (JStr (cfg_connectTo overlays))
     = false) /\
  (deliver loaders_ping_event node_connected = node_connected \/
   deliver loaders_ping_event node_connected = recorded [ConsoleError] node_connected).
Proof.
  split; [right; left; reflexivity|].
  apply (misaddressed_event_dropped overlays std_helpers reliable).
  right. left. reflexivity.
Defined.

Lemma delivery_failure_reported_witness :
  (ChannelsNode.buffers std_helpers "ping" node_connected = false /\
   ch_source (channel node_connected) = Some 1 /\
   ch_origin (channel node_connected) = Some studio /\
   truthy (ch_id (channel node_connected)) = true /\
   studio <> "" /\
   refusing 1 (ChannelsNode.outgoing overlays "ping" (JNum 1) node_connected) studio = false) /\
  ChannelsNode.send overlays std_helpers refusing "ping" (JNum 1) node_connected =
    (Thrown (PostMessageFailed (next_uuid node_connected) "overlays"),
     uuid_taken node_connected).
Proof.
  assert (Hne : studio <> "") by discriminate.
  split; [repeat split; exact Hne|].
  exact (delivery_failure_reported overlays std_helpers refusing "ping" (JNum 1)
           node_connected 1 studio eq_refl eq_refl eq_refl eq_refl Hne eq_refl).
Defined.

Lemma send_without_session_drops_witness :
  (ChannelsNode.buffers std_helpers "handshake/syn" node0 = false /\
   (truthy (ch_id (channel node0)) = false \/
    origin_truthy (ch_origin (channel node0)) = false \/
    ch_source (channel node0) = None)) /\
  ChannelsNode.send overlays std_helpers reliable "handshake/syn" JUndefined node0
    = (Normal tt, node0).
Proof.
  split; [split; [reflexivity | left; reflexivity]|].
  apply (send_without_session_drops overlays std_helpers reliable);
    [reflexivity | left; reflexivity].
Defined.

Lemma posted_envelopes_well_formed_witness :
  let reply := mkMsg (JStr "s1") (JObj [("id", JStr "s1")]) DOMAIN "overlays" 0
                     "presentation" "handshake/syn-ack" in
  In (PostMessage 1 reply studio)
     (trace (ChannelsNode.run overlays std_helpers reliable [Deliver syn_event] node0)) /\
  msg_domain reply = DOMAIN /\
  msg_from reply = cfg_id overlays /\
  msg_to reply = cfg_connectTo overlays /\
  truthy (msg_connectionId reply) = true /\
  studio <> "".
Proof.
  cbv zeta.
  assert (Hin : In (PostMessage 1 (mkMsg (JStr "s1") (JObj [("id", JStr "s1")]) DOMAIN
                                          "overlays" 0 "presentation" "handshake/syn-ack")
                                studio)
                   (trace (ChannelsNode.run overlays std_helpers reliable [Deliver syn_event]
                                            node0)))
    by (right; right; left; reflexivity).
  split; [exact Hin|].
  exact (posted_envelopes_well_formed overlays std_helpers reliable [Deliver syn_event]
           1 _ studio Hin).
Defined.

Lemma buffer_discipline_witness :
  let ops := [Deliver syn_event; CallSend "a" (JNum 1); Deliver ack_event] in
  let final := ChannelsNode.run overlays std_helpers reliable ops node0 in
  ch_status (channel final) = Connected /\
  ChannelsNode.all_application std_helpers (ch_buffer (channel final)) = true /\
  ch_buffer (channel final) = [].
Proof.
  cbv zeta.
  destruct (buffer_discipline overlays std_helpers reliable
              [Deliver syn_event; CallSend "a" (JNum 1); Deliver ack_event]) as [Hall Hconn].
  split; [reflexivity|]. split; [exact Hall | apply Hconn; reflexivity].
Defined.

Lemma status_callback_in_sync_witness :
  let ops := [Deliver syn_event; Deliver ack_event; Deliver disconnect_event; CallDestroy] in
  cfg_onStatusUpdate overlays = true /\
  last (ChannelsNode.status_reports
          (trace (ChannelsNode.run overlays std_helpers reliable ops node0)))
    = Some (ch_status (channel (ChannelsNode.run overlays std_helpers reliable ops node0))).
Proof.
  cbv zeta. split; [reflexivity|].
  apply (status_callback_in_sync overlays std_helpers reliable). reflexivity.
Defined.


Lemma flush_failure_loses_buffer_witness :
  (ch_buffer (channel node_buffered) = [("a", JNum 1); ("b", JNum 2)] /\
   ch_source (channel node_buffered) = Some 1 /\
   ch_origin (channel node_buffered) = Some studio /\
   truthy (ch_id (channel node_buffered)) = true /\
   studio <> "" /\
   refusing 1 (ChannelsNode.outgoing overlays "a" (JNum 1) node_buffered) studio = false) /\
  ChannelsNode.setConnectionStatus overlays std_helpers refusing Connected node_buffered =
    (Thrown (PostMessageFailed (next_uuid node_buffered) "overlays"),
     uuid_taken (with_channel (set_buffer [])
                   (recorded (ChannelsNode.status_report overlays Connected)
                      (with_channel (set_status Connected) node_buffered)))).
Proof.
  assert (Hne : studio <> "") by discriminate.
  split; [repeat split; exact Hne|].
  exact (flush_failure_loses_buffer overlays std_helpers refusing node_buffered 1 studio
           "a" (JNum 1) [("b", JNum 2)] eq_refl eq_refl eq_refl eq_refl Hne eq_refl).
Defined.

Lemma no_delivery_while_connecting_witness :
  let ops := [CallSend "a" (JNum 1); Deliver syn_event; CallSend "b" (JNum 2);
              Deliver ping_event] in
  ChannelsNode.always_connecting overlays std_helpers reliable ops node0 = true /\
  ChannelsNode.wire std_helpers (ChannelsNode.run overlays std_helpers reliable ops node0) = [].
Proof.
  cbv zeta. split; [reflexivity|].
  apply (no_delivery_while_connecting overlays std_helpers reliable). reflexivity.
Defined.

Lemma peer_disconnect_witness :
  (isHandshakeMessage std_helpers "channel/disconnect" = false /\
   isLegacyHandshakeMessage std_helpers disconnect_event = false /\
   ChannelsNode.isValidMessageEvent overlays disconnect_event node_buffered
     = (Normal true, node_buffered) /\
   ChannelsNode.origin_rejected disconnect_event node_buffered = false /\
   field_of (ev_data disconnect_event) "type" = JStr "channel/disconnect") /\
  ChannelsNode.handleEvents overlays std_helpers reliable disconnect_event node_buffered =
    (Normal tt,
     recorded (ChannelsNode.status_report overlays Disconnected)
              (with_channel (set_status Disconnected) node_buffered)).
Proof.
  split; [repeat split|].
  exact (peer_disconnect overlays std_helpers reliable disconnect_event node_buffered
           eq_refl eq_refl eq_refl eq_refl eq_refl).
Defined.

Lemma posts_go_to_known_peers_witness :
  let reply := mkMsg (JStr "s1") (JObj [("id", JStr "s1")]) DOMAIN "overlays" 0
                     "presentation" "handshake/syn-ack" in
  In (PostMessage 1 reply studio)
     (trace (ChannelsNode.run overlays std_helpers reliable [Deliver syn_event] node0)) /\
  (exists e, In (Deliver e) [Deliver syn_event] /\ ev_source e = Some 1) /\
  (exists e, In (Deliver e) [Deliver syn_event] /\ ev_origin e = studio).
Proof.
  cbv zeta.
  assert (Hin : In (PostMessage 1 (mkMsg (JStr "s1") (JObj [("id", JStr "s1")]) DOMAIN
                                          "overlays" 0 "presentation" "handshake/syn-ack")
                                studio)
                   (trace (ChannelsNode.run overlays std_helpers reliable [Deliver syn_event]
                                            node0)))
    by (right; right; left; reflexivity).
  split; [exact Hin|].
  exact (posts_go_to_known_peers overlays std_helpers reliable [Deliver syn_event]
           1 _ studio Hin).
Defined.

Lemma send_after_destroy_still_posts_witness :
  (ch_source (channel node_connected) = Some 1 /\
   ch_origin (channel node_connected) = Some studio /\
   truthy (ch_id (channel node_connected)) = true /\
   studio <> "") /\
  ch_status (channel node_destroyed) = Disconnected /\
  listening node_destroyed = false /\
  ChannelsNode.send overlays std_helpers reliable "ping" (JNum 1) node_destroyed =
    (Normal tt,
     recorded [PostMessage 1 (ChannelsNode.outgoing overlays "ping" (JNum 1) node_destroyed)
                           studio]
              (uuid_taken node_destroyed)).
Proof.
  assert (Hne : studio <> "") by discriminate.
  split; [repeat split; exact Hne|].
  exact (send_after_destroy_still_posts overlays std_helpers reliable "ping" (JNum 1)
           node_connected 1 studio eq_refl eq_refl eq_refl Hne eq_refl).
Defined.

Lemma sink_follows_source_witness :
  (isLegacyHandshakeMessage std_helpers roaming_ping_event = false /\
   ChannelsNode.isValidMessageEvent overlays roaming_ping_event node_connected
     = (Normal true, node_connected) /\
   ChannelsNode.origin_rejected roaming_ping_event node_connected = false /\
   ev_source roaming_ping_event = Some 3) /\
  ch_source (channel node_connected) = Some 1 /\
  ch_source (channel (deliver roaming_ping_event node_connected)) = Some 3.
Proof.
  split; [repeat split|]. split; [reflexivity|].
  exact (sink_follows_source overlays std_helpers reliable roaming_ping_event node_connected 3
           eq_refl eq_refl eq_refl eq_refl).
Defined.
